(** * Password Generator & Strength Checker: a shallow embedding of script.js

    The development follows the layout of the script: the character sets
    and the constrained-random generator of class [PasswordGenerator], the
    strength analyzer, the static classes [PasswordTester] and
    [AdvancedAnalyzer], the extended recommendations, and then the theorems.

    Conventions.
    - A JavaScript string is a list of characters ([str]); the characters
      are the 8-bit ones of [ascii] (ASCII and Latin-1).
    - An array entry that may be [undefined] is an [option]: [None] is
      [undefined].
    - [crypto.getRandomValues] is an arbitrary stream of numbers; a
      computation that draws from it is a function from the stream to a
      result and the rest of the stream ([Rand]).
    - A JavaScript number that is not an integer (the entropy) is kept
      exactly, see [number]. *)

From Stdlib Require Import ZArith NArith List Ascii String Permutation Lia Bool.
From Stdlib Require Import Reals Lra.
From stdpp Require Import base list.
Import ListNotations.

Set Default Proof Using "Type".

(** ** Strings *)

Definition str : Type := list ascii.

(** A string literal of the script. *)
Definition lit (s : string) : str := list_ascii_of_string s.

(** [s.includes(c)] for a one-character [c]. *)
Definition includesChar (s : str) (c : ascii) : bool :=
  existsb (Ascii.eqb c) s.

(** ** The secure random source *)

(** The k-th number that [crypto.getRandomValues] will deliver. *)
Definition Source : Type := nat -> N.

Definition Rand (A : Type) : Type := Source -> A * Source.

Definition ret {A} (a : A) : Rand A := fun s => (a, s).

Definition bind {A B} (m : Rand A) (k : A -> Rand B) : Rand B :=
  fun s => let (a, s') := m s in k a s'.

Notation "'draw' x ':=' m 'in' k" := (bind m (fun x => k))
  (at level 10, x pattern, m at level 100, k at level 200,
   format "'[v' 'draw'  x  ':='  m  'in' '/' k ']'").

(** [const a = new Uint32Array(1); crypto.getRandomValues(a); a[0]]:
    the next number of the stream, stored in 32 bits. *)
Definition getRandomValues : Rand N :=
  fun s => (N.modulo (s 0) (2 ^ 32), fun k => s (S k)).

(** The result of a computation on a given stream. *)
Definition run {A} (m : Rand A) (s : Source) : A := fst (m s).

(** A property of the result of a computation, for every stream of
    random numbers. *)
Definition always {A} (m : Rand A) (P : A -> Prop) : Prop :=
  forall s : Source, P (run m s).

(** ** Class PasswordGenerator: generation *)

Record CharSets := {
  uppercase : str;
  lowercase : str;
  numbers : str;
  symbols : str;
  similar : str;
  ambiguous : str
}.

(** [this.charSets]. The ambiguous set is written in the script with
    escapes; its characters are [{}[]()/], a backslash (92), a double
    quote (34), and ['`~,;.<>]. *)
Definition charSets : CharSets := {|
  uppercase := lit "ABCDEFGHIJKLMNOPQRSTUVWXYZ";
  lowercase := lit "abcdefghijklmnopqrstuvwxyz";
  numbers := lit "0123456789";
  symbols := lit "!@#$%^&*()_+-=[]{}|;:,.<>?";
  similar := lit "0Oo1lI";
  ambiguous := lit "{}[]()/" ++ [ascii_of_nat 92; ascii_of_nat 34]
               ++ lit "'`~,;.<>"
|}.

Module Options.
(** The object built by [getPasswordOptions]. *)
Record t := {
  length : Z;
  includeUppercase : bool;
  includeLowercase : bool;
  includeNumbers : bool;
  includeSymbols : bool;
  excludeSimilar : bool;
  excludeAmbiguous : bool
}.
End Options.

Definition validateOptions (options : Options.t) : bool :=
  Options.includeUppercase options || Options.includeLowercase options ||
  Options.includeNumbers options || Options.includeSymbols options.

(** [charset.split('').filter(char => !charsToRemove.includes(char)).join('')] *)
Definition removeChars (charset charsToRemove : str) : str :=
  List.filter (fun char => negb (includesChar charsToRemove char)) charset.

(** [charset[array[0] % charset.length]]. On the empty string the index is
    [NaN] and the result [undefined]. *)
Definition getRandomChar (charset : str) : Rand (option ascii) :=
  draw r := getRandomValues in
  ret (match charset with
       | [] => None
       | _ => charset !! N.to_nat (r mod N.of_nat (List.length charset))
       end).

(** [[array[i], array[j]] = [array[j], array[i]]]. Both entries are read,
    then [array[i]] and [array[j]] are written. [shuffleArray] only calls
    it with [j <= i < array.length] ([shuffle_index_in_range],
    [swap_in_range]); outside the array the script would read [undefined]
    and grow the array, which the model leaves out. *)
Definition swap {A} (array : list A) (i j : nat) : list A :=
  match array !! i, array !! j with
  | Some x, Some y => <[j:=x]> (<[i:=y]> array)
  | _, _ => array
  end.

(** The body of [for (let i = array.length - 1; i > 0; i--)], from [i]. *)
Fixpoint shuffleLoop {A} (i : nat) (array : list A) : Rand (list A) :=
  match i with
  | 0 => ret array
  | S i' =>
      draw r := getRandomValues in
      let j := N.to_nat (r mod N.of_nat (i + 1)) in
      shuffleLoop i' (swap array i j)
  end.

Definition shuffleArray {A} (array : list A) : Rand (list A) :=
  shuffleLoop (List.length array - 1) array.

(** [for (let i = 0; i < remainingLength; i++) randomChars.push(...)],
    with [n] rounds left. *)
Fixpoint pushRandomChars (n : nat) (charset : str)
    (randomChars : list (option ascii)) : Rand (list (option ascii)) :=
  match n with
  | 0 => ret randomChars
  | S n' =>
      draw c := getRandomChar charset in
      pushRandomChars n' charset (randomChars ++ [c])
  end.

(** One [if (options.include...)] block of [createPassword]: filter the
    class when [exclude] is set, append it to [charset], push one of its
    characters on [guaranteedChars]. *)
Definition addClass (include exclude : bool) (chars toRemove : str)
    (acc : str * list (option ascii)) : Rand (str * list (option ascii)) :=
  let '(charset, guaranteedChars) := acc in
  if include then
    let chars := if exclude then removeChars chars toRemove else chars in
    draw c := getRandomChar chars in
    ret (charset ++ chars, guaranteedChars ++ [c])
  else ret (charset, guaranteedChars).

(** [createPassword] up to the two arrays [guaranteedChars] and
    [randomChars]. *)
Definition drawChars (options : Options.t)
    : Rand (list (option ascii) * list (option ascii)) :=
  draw acc := addClass (Options.includeUppercase options)
                (Options.excludeSimilar options)
                (uppercase charSets) (similar charSets) ([], []) in
  draw acc := addClass (Options.includeLowercase options)
                (Options.excludeSimilar options)
                (lowercase charSets) (similar charSets) acc in
  draw acc := addClass (Options.includeNumbers options)
                (Options.excludeSimilar options)
                (numbers charSets) (similar charSets) acc in
  draw acc := addClass (Options.includeSymbols options)
                (Options.excludeAmbiguous options)
                (symbols charSets) (ambiguous charSets) acc in
  let '(charset, guaranteedChars) := acc in
  let remainingLength :=
    (Options.length options - Z.of_nat (List.length guaranteedChars))%Z in
  draw randomChars := pushRandomChars (Z.to_nat remainingLength) charset [] in
  ret (guaranteedChars, randomChars).

(** [array.join('')]: an [undefined] entry contributes nothing. *)
Definition join (array : list (option ascii)) : str :=
  flat_map (fun e => match e with Some c => [c] | None => [] end) array.

Definition createPassword (options : Options.t) : Rand str :=
  draw chars := drawChars options in
  let '(guaranteedChars, randomChars) := chars in
  let allChars := guaranteedChars ++ randomChars in
  draw shuffled := shuffleArray allChars in
  ret (join shuffled).

(** ** Class PasswordGenerator: strength analysis *)

Definition code (c : ascii) : nat := nat_of_ascii c.

Definition between (lo hi : nat) (c : ascii) : bool :=
  Nat.leb lo (code c) && Nat.leb (code c) hi.

(** The character classes of the regular expressions [[A-Z]], [[a-z]],
    [\d] and [[^A-Za-z0-9]]. *)
Definition isUpper (c : ascii) : bool := between 65 90 c.
Definition isLower (c : ascii) : bool := between 97 122 c.
Definition isDigit (c : ascii) : bool := between 48 57 c.
Definition isSymbol (c : ascii) : bool :=
  negb (isUpper c || isLower c || isDigit c).

(** [String.prototype.toLowerCase] on one 8-bit character: the ASCII
    capitals and the Latin-1 capitals (192 to 222 but the sign 215) move
    up by 32. *)
Definition toLowerCaseChar (c : ascii) : ascii :=
  if isUpper c || (between 192 222 c && negb (Nat.eqb (code c) 215))
  then ascii_of_nat (code c + 32) else c.

Definition toLowerCase (s : str) : str := map toLowerCaseChar s.

(** [s.substring(i, j)] for [i <= j]. *)
Definition substring (s : str) (i j : nat) : str := take (j - i) (drop i s).

Fixpoint startsWith (s prefix : str) : bool :=
  match prefix, s with
  | [], _ => true
  | p :: prefix', c :: s' => Ascii.eqb c p && startsWith s' prefix'
  | _ :: _, [] => false
  end.

(** [s.includes(sub)] *)
Fixpoint includes (s sub : str) : bool :=
  startsWith s sub ||
  match s with
  | [] => false
  | _ :: s' => includes s' sub
  end.

(** [chars.indexOf(char)], counting from [index]. *)
Fixpoint indexOfFrom (chars : str) (char : ascii) (index : Z) : Z :=
  match chars with
  | [] => -1
  | c :: chars' =>
      if Ascii.eqb c char then index else indexOfFrom chars' char (index + 1)
  end.

Definition indexOf (chars : str) (char : ascii) : Z := indexOfFrom chars char 0.

(** [array.filter((x, index) => f(x, index))], counting from [index]. *)
Fixpoint filterIndexed {A} (f : A -> Z -> bool) (array : list A) (index : Z)
    : list A :=
  match array with
  | [] => []
  | x :: array' =>
      if f x index then x :: filterIndexed f array' (index + 1)
      else filterIndexed f array' (index + 1)
  end.

Definition hasRepeatedChars (password : str) : bool :=
  let chars := password in
  let repeated :=
    filterIndexed (fun char index => negb (Z.eqb (indexOf chars char) index))
                  chars 0 in
  Nat.ltb 0 (List.length repeated).

Definition sequences : list str :=
  [lit "0123456789"; lit "abcdefghijklmnopqrstuvwxyz"; lit "qwertyuiop";
   lit "asdfghjkl"; lit "zxcvbnm"].

(** The two nested loops return [true] at the first hit: an [existsb]
    over the sequences and over [i = 0 .. seq.length - 3]. *)
Definition hasSequentialChars (password : str) : bool :=
  existsb (fun sequence =>
    existsb (fun i =>
      let subseq := substring sequence i (i + 3) in
      includes (toLowerCase password) subseq ||
      includes (toLowerCase password) (rev subseq))
      (List.seq 0 (List.length sequence - 2)))
    sequences.

(** A JavaScript number of the form [len * Math.log2(charset)], kept
    exactly as the pair of its integer factors. [Math.log2(0)] is
    [-Infinity]; [0 * -Infinity] is [NaN]. The model takes the product
    for the real number it stands for, without rounding: the alphabet
    sizes of the script are 32, where the logarithm is the integer 5, or
    no power of two, where the product is no integer and lies far from
    the thresholds 40, 50 and 60. *)
Inductive number :=
  | NaN
  | NegInfinity
  | Bits (len charset : N).

Definition timesLog2 (len charset : N) : number :=
  if N.eqb charset 0 then (if N.eqb len 0 then NaN else NegInfinity)
  else Bits len charset.

(** [e > k] for an integer [k]: [len * log2(charset) > k] says
    [charset ^ len > 2 ^ k] ([exceeds_Bits_real]). Every comparison with
    [NaN] is false. *)
Definition exceeds (e : number) (k : N) : bool :=
  match e with
  | NaN | NegInfinity => false
  | Bits len charset => N.ltb (2 ^ k) (charset ^ len)
  end.

(** [e < k] *)
Definition below (e : number) (k : N) : bool :=
  match e with
  | NaN => false
  | NegInfinity => true
  | Bits len charset => N.ltb (charset ^ len) (2 ^ k)
  end.

Definition calculateEntropy (password : str) : number :=
  let charset := 0%N in
  let charset := if existsb isLower password then (charset + 26)%N else charset in
  let charset := if existsb isUpper password then (charset + 26)%N else charset in
  let charset := if existsb isDigit password then (charset + 10)%N else charset in
  let charset := if existsb isSymbol password then (charset + 32)%N else charset in
  timesLog2 (N.of_nat (List.length password)) charset.

Module Analysis.
(** The object built by [analyzePassword]. *)
Record t := {
  length : Z;
  hasUppercase : bool;
  hasLowercase : bool;
  hasNumbers : bool;
  hasSymbols : bool;
  hasRepeated : bool;
  hasSequential : bool;
  entropy : number;
  score : Z;
  level : str
}.

Definition set_score (a : t) (s : Z) : t :=
  {| length := length a; hasUppercase := hasUppercase a;
     hasLowercase := hasLowercase a; hasNumbers := hasNumbers a;
     hasSymbols := hasSymbols a; hasRepeated := hasRepeated a;
     hasSequential := hasSequential a; entropy := entropy a;
     score := s; level := level a |}.

Definition set_level (a : t) (l : str) : t :=
  {| length := length a; hasUppercase := hasUppercase a;
     hasLowercase := hasLowercase a; hasNumbers := hasNumbers a;
     hasSymbols := hasSymbols a; hasRepeated := hasRepeated a;
     hasSequential := hasSequential a; entropy := entropy a;
     score := score a; level := l |}.
End Analysis.

Definition calculateStrengthScore (analysis : Analysis.t) : Z :=
  let score := 0%Z in
  (* Length scoring *)
  let score := if (Analysis.length analysis >=? 8)%Z then (score + 25)%Z else score in
  let score := if (Analysis.length analysis >=? 12)%Z then (score + 15)%Z else score in
  let score := if (Analysis.length analysis >=? 16)%Z then (score + 10)%Z else score in
  (* Character type scoring *)
  let score := if Analysis.hasUppercase analysis then (score + 10)%Z else score in
  let score := if Analysis.hasLowercase analysis then (score + 10)%Z else score in
  let score := if Analysis.hasNumbers analysis then (score + 10)%Z else score in
  let score := if Analysis.hasSymbols analysis then (score + 15)%Z else score in
  (* Entropy bonus *)
  let score := if exceeds (Analysis.entropy analysis) 40 then (score + 10)%Z else score in
  let score := if exceeds (Analysis.entropy analysis) 60 then (score + 5)%Z else score in
  (* Penalties *)
  let score := if Analysis.hasRepeated analysis then (score - 10)%Z else score in
  let score := if Analysis.hasSequential analysis then (score - 15)%Z else score in
  let score := if (Analysis.length analysis <? 8)%Z then (score - 20)%Z else score in
  Z.max 0 (Z.min 100 score).

Definition getStrengthLevel (score : Z) : str :=
  if (score >=? 90)%Z then lit "Excellent"
  else if (score >=? 75)%Z then lit "Strong"
  else if (score >=? 60)%Z then lit "Good"
  else if (score >=? 40)%Z then lit "Fair"
  else if (score >=? 20)%Z then lit "Weak"
  else lit "Very Weak".

Definition analyzePassword (password : str) : Analysis.t :=
  let analysis := {|
    Analysis.length := Z.of_nat (List.length password);
    Analysis.hasUppercase := existsb isUpper password;
    Analysis.hasLowercase := existsb isLower password;
    Analysis.hasNumbers := existsb isDigit password;
    Analysis.hasSymbols := existsb isSymbol password;
    Analysis.hasRepeated := hasRepeatedChars password;
    Analysis.hasSequential := hasSequentialChars password;
    Analysis.entropy := calculateEntropy password;
    Analysis.score := 0;
    Analysis.level := lit "Very Weak"
  |} in
  let analysis := Analysis.set_score analysis (calculateStrengthScore analysis) in
  let analysis := Analysis.set_level analysis (getStrengthLevel (Analysis.score analysis)) in
  analysis.

(** ** The strength panel and the page *)

(** What [checkPasswordStrength] writes on the page: the width of the
    progress bar (percent), the label, the score text ([None] is the empty
    text, [Some n] is [n/100]), the six criteria that carry the class
    [met], and the suggestion list with its visibility. The style class
    and the transition of the bar are left out. *)
Record Panel := {
  strengthProgress : Z;
  strengthLabel : str;
  strengthScore : option Z;
  lengthCriterion : bool;
  uppercaseCriterion : bool;
  lowercaseCriterion : bool;
  numberCriterion : bool;
  symbolCriterion : bool;
  lengthBonusCriterion : bool;
  suggestionsList : list str;
  suggestionsShown : bool
}.

Definition resetStrengthMeter (panel : Panel) : Panel := {|
  strengthProgress := 0;
  strengthLabel := lit "Enter a password to check";
  strengthScore := None;
  lengthCriterion := false;
  uppercaseCriterion := false;
  lowercaseCriterion := false;
  numberCriterion := false;
  symbolCriterion := false;
  lengthBonusCriterion := false;
  suggestionsList := suggestionsList panel;
  suggestionsShown := false
|}.

Definition updateStrengthMeter (analysis : Analysis.t) (panel : Panel) : Panel := {|
  strengthProgress := Analysis.score analysis;
  strengthLabel := Analysis.level analysis;
  strengthScore := Some (Analysis.score analysis);
  lengthCriterion := lengthCriterion panel;
  uppercaseCriterion := uppercaseCriterion panel;
  lowercaseCriterion := lowercaseCriterion panel;
  numberCriterion := numberCriterion panel;
  symbolCriterion := symbolCriterion panel;
  lengthBonusCriterion := lengthBonusCriterion panel;
  suggestionsList := suggestionsList panel;
  suggestionsShown := suggestionsShown panel
|}.

Definition updateCriteria (password : str) (analysis : Analysis.t)
    (panel : Panel) : Panel := {|
  strengthProgress := strengthProgress panel;
  strengthLabel := strengthLabel panel;
  strengthScore := strengthScore panel;
  lengthCriterion := Nat.leb 8 (List.length password);
  uppercaseCriterion := Analysis.hasUppercase analysis;
  lowercaseCriterion := Analysis.hasLowercase analysis;
  numberCriterion := Analysis.hasNumbers analysis;
  symbolCriterion := Analysis.hasSymbols analysis;
  lengthBonusCriterion := Nat.leb 12 (List.length password);
  suggestionsList := suggestionsList panel;
  suggestionsShown := suggestionsShown panel
|}.

(** [if (cond) array.push(x)] *)
Definition pushIf {A} (cond : bool) (x : A) (array : list A) : list A :=
  if cond then array ++ [x] else array.

(** The list that [updateSuggestions] builds. *)
Definition suggestionsOf (analysis : Analysis.t) : list str :=
  let suggestions := [] in
  let suggestions := pushIf (Analysis.length analysis <? 8)%Z
                       (lit "Use at least 8 characters") suggestions in
  let suggestions := pushIf (Analysis.length analysis <? 12)%Z
                       (lit "Use 12+ characters for better security") suggestions in
  let suggestions := pushIf (negb (Analysis.hasUppercase analysis))
                       (lit "Add uppercase letters") suggestions in
  let suggestions := pushIf (negb (Analysis.hasLowercase analysis))
                       (lit "Add lowercase letters") suggestions in
  let suggestions := pushIf (negb (Analysis.hasNumbers analysis))
                       (lit "Add numbers") suggestions in
  let suggestions := pushIf (negb (Analysis.hasSymbols analysis))
                       (lit "Add special characters") suggestions in
  let suggestions := pushIf (Analysis.hasRepeated analysis)
                       (lit "Avoid repeated characters") suggestions in
  let suggestions := pushIf (Analysis.hasSequential analysis)
                       (lit "Avoid sequential characters") suggestions in
  suggestions.

Definition updateSuggestions (analysis : Analysis.t) (panel : Panel) : Panel :=
  let suggestions := suggestionsOf analysis in
  let shown := Nat.ltb 0 (List.length suggestions) in
  {| strengthProgress := strengthProgress panel;
     strengthLabel := strengthLabel panel;
     strengthScore := strengthScore panel;
     lengthCriterion := lengthCriterion panel;
     uppercaseCriterion := uppercaseCriterion panel;
     lowercaseCriterion := lowercaseCriterion panel;
     numberCriterion := numberCriterion panel;
     symbolCriterion := symbolCriterion panel;
     lengthBonusCriterion := lengthBonusCriterion panel;
     suggestionsList := if shown then suggestions else suggestionsList panel;
     suggestionsShown := shown |}.

(** [if (!password)]: the empty string is the only falsy string. *)
Definition checkPasswordStrength (password : str) (panel : Panel) : Panel :=
  match password with
  | [] => resetStrengthMeter panel
  | _ =>
      let analysis := analyzePassword password in
      let panel := updateStrengthMeter analysis panel in
      let panel := updateCriteria password analysis panel in
      updateSuggestions analysis panel
  end.

Inductive ToastType := error | success | info.

(** The part of the page that [generatePassword] writes. *)
Record Page := {
  generatedPassword : str;
  passwordHistory : list str;
  toast : option (str * ToastType);
  panel : Panel
}.

(** [a === b] on strings. *)
Fixpoint strEq (a b : str) : bool :=
  match a, b with
  | [], [] => true
  | x :: a', y :: b' => Ascii.eqb x y && strEq a' b'
  | _, _ => false
  end.

Definition showToast (message : str) (type : ToastType) (page : Page) : Page :=
  {| generatedPassword := generatedPassword page;
     passwordHistory := passwordHistory page;
     toast := Some (message, type);
     panel := panel page |}.

(** [addToHistory]: nothing for a password already there, else it goes
    in front and the list is cut to its first ten. *)
Definition addToHistory (password : str) (page : Page) : Page :=
  if existsb (strEq password) (passwordHistory page) then page
  else
    let history := password :: passwordHistory page in
    let history := if Nat.ltb 10 (List.length history)
                   then take 10 history else history in
    {| generatedPassword := generatedPassword page;
       passwordHistory := history;
       toast := toast page;
       panel := panel page |}.

(** [generatePassword], on the options that [getPasswordOptions] read. *)
Definition generatePassword (options : Options.t) (page : Page) : Rand Page :=
  if negb (validateOptions options) then
    ret (showToast (lit "Please select at least one character type!") error page)
  else
    draw password := createPassword options in
    let page := {| generatedPassword := password;
                   passwordHistory := passwordHistory page;
                   toast := toast page;
                   panel := panel page |} in
    let page := addToHistory password page in
    let page := {| generatedPassword := generatedPassword page;
                   passwordHistory := passwordHistory page;
                   toast := toast page;
                   panel := checkPasswordStrength password (panel page) |} in
    ret (showToast (lit "Password generated successfully!") success page).

(** ** Class PasswordTester *)

Module PasswordTester.

Definition commonPasswords : list str :=
  [lit "password"; lit "123456"; lit "password123"; lit "admin";
   lit "qwerty"; lit "letmein"; lit "welcome"; lit "monkey";
   lit "1234567890"; lit "abc123"].

Definition isCommonPassword (password : str) : bool :=
  existsb (fun common => includes (toLowerCase password) (toLowerCase common))
          commonPasswords.

(** A letter of a pattern under the flag [i] matches its two ASCII
    cases and nothing else: no other 8-bit character canonicalizes to
    an ASCII letter. *)
Definition ciChar (p c : ascii) : bool :=
  Ascii.eqb c p || (isUpper c && Ascii.eqb (ascii_of_nat (code c + 32)) p).

(** [/^word\d{min,}$/i] for a lower-case [word]. *)
Definition wordThenDigits (word : str) (min : nat) (password : str) : bool :=
  let n := List.length word in
  Nat.eqb (List.length (take n password)) n &&
  forallb (fun pc => ciChar (fst pc) (snd pc)) (combine word (take n password)) &&
  forallb isDigit (drop n password) &&
  Nat.leb min (List.length (drop n password)).

(** [/^class{min,max}$/] *)
Definition allOf (class : ascii -> bool) (min max : nat) (password : str) : bool :=
  forallb class password &&
  Nat.leb min (List.length password) && Nat.leb (List.length password) max.

(** [commonPatterns], in the order of the script. *)
Definition commonPatterns : list (str -> bool) :=
  [wordThenDigits (lit "password") 1;
   wordThenDigits (lit "admin") 0;
   wordThenDigits (lit "user") 0;
   wordThenDigits (lit "test") 0;
   allOf isDigit 4 8;
   allOf (fun c => isLower c || isUpper c) 1 8].

Definition checkAgainstLeaks (password : str) : bool :=
  existsb (fun pattern => pattern password) commonPatterns.

End PasswordTester.

(** ** Class AdvancedAnalyzer *)

Module AdvancedAnalyzer.

Record Patterns := {
  keyboard : bool;
  dictionary : bool;
  personal : bool;
  repeated : bool
}.

Definition keyboardRows : list str :=
  [lit "qwertyuiop"; lit "asdfghjkl"; lit "zxcvbnm"; lit "1234567890"].

(** [for (let i = 0; i <= row.length - 3; i++)] with its early
    [return true]. *)
Definition isKeyboardPattern (password : str) : bool :=
  existsb (fun row =>
    existsb (fun i =>
      let pattern := substring row i (i + 3) in
      includes (toLowerCase password) pattern)
      (List.seq 0 (List.length row - 2)))
    keyboardRows.

Definition commonWords : list str :=
  [lit "password"; lit "welcome"; lit "hello"; lit "world"; lit "love";
   lit "family"; lit "friend"; lit "computer"; lit "internet";
   lit "security"; lit "login"].

Definition isDictionaryWord (password : str) : bool :=
  existsb (fun word => includes (toLowerCase password) word) commonWords.

(** A regular expression that is a fixed run of character classes,
    matched at the start of [s]. *)
Fixpoint matchAt (classes : list (ascii -> bool)) (s : str) : bool :=
  match classes, s with
  | [], _ => true
  | class :: classes', c :: s' => class c && matchAt classes' s'
  | _ :: _, [] => false
  end.

(** An unanchored match: [m] holds at some position of [s]. *)
Fixpoint search (m : str -> bool) (s : str) : bool :=
  m s ||
  match s with
  | [] => false
  | _ :: s' => search m s'
  end.

Definition isWordChar (c : ascii) : bool :=
  isUpper c || isLower c || isDigit c || Ascii.eqb c "_"%char.

(** An unanchored match of [\b] followed by [m], where [m] only matches
    a string that starts with a word character: the boundary is there
    exactly when the character before is not a word character. *)
Fixpoint searchBoundary (m : str -> bool) (afterWordChar : bool) (s : str)
    : bool :=
  (negb afterWordChar && m s) ||
  match s with
  | [] => false
  | c :: s' => searchBoundary m (isWordChar c) s'
  end.

Definition chr (p : ascii) (c : ascii) : bool := Ascii.eqb c p.
Arguments chr p%_char c.

Definition months : list str :=
  [lit "jan"; lit "feb"; lit "mar"; lit "apr"; lit "may"; lit "jun";
   lit "jul"; lit "aug"; lit "sep"; lit "oct"; lit "nov"; lit "dec"].

Definition d : ascii -> bool := isDigit.

(** [patterns.some(pattern => pattern.test(password))], in the order of
    the script: two date formats with slashes and dashes, the ISO
    date, the years and the months. *)
Definition personalPatterns : list (str -> bool) :=
  [search (matchAt [d; d; chr "/"; d; d; chr "/"; d; d; d; d]);
   search (matchAt [d; d; d; d; chr "-"; d; d; chr "-"; d; d]);
   search (matchAt [d; d; chr "-"; d; d; chr "-"; d; d; d; d]);
   search (fun s => (matchAt [chr "1"; chr "9"] s || matchAt [chr "2"; chr "0"] s)
                    && matchAt [d; d] (drop 2 s));
   searchBoundary (fun s =>
     existsb (fun month => matchAt (map PasswordTester.ciChar month) s) months)
     false].

Definition mightBePersonalInfo (password : str) : bool :=
  existsb (fun pattern => pattern password) personalPatterns.

(** [for (let len = 2; len <= Math.floor(password.length / 2); len++)]
    and [for (let i = 0; i <= password.length - len * 2; i++)], with
    the early [return true]. *)
Definition hasRepeatedSubstring (password : str) : bool :=
  let n := List.length password in
  existsb (fun len =>
    existsb (fun i =>
      let substring_ := substring password i (i + len) in
      let remaining := drop (i + len) password in
      includes remaining substring_)
      (List.seq 0 (n - len * 2 + 1)))
    (List.seq 2 (n / 2 - 1)).

Definition analyzePattern (password : str) : Patterns := {|
  keyboard := isKeyboardPattern password;
  dictionary := isDictionaryWord password;
  personal := mightBePersonalInfo password;
  repeated := hasRepeatedSubstring password
|}.

End AdvancedAnalyzer.

(** ** Extended analysis *)

Record Recommendation := {
  type : str;
  text : str
}.

Definition getAdvancedRecommendations (basic : Analysis.t)
    (patterns : AdvancedAnalyzer.Patterns) (isCommon isLeaked : bool)
    : list Recommendation :=
  let recommendations := [] in
  let recommendations :=
    pushIf isCommon
      {| type := lit "critical"; text := lit "Avoid common passwords" |}
      recommendations in
  let recommendations :=
    pushIf isLeaked
      {| type := lit "critical"; text := lit "This pattern appears in data breaches" |}
      recommendations in
  let recommendations :=
    pushIf (AdvancedAnalyzer.keyboard patterns)
      {| type := lit "warning"; text := lit "Avoid keyboard patterns" |}
      recommendations in
  let recommendations :=
    pushIf (AdvancedAnalyzer.dictionary patterns)
      {| type := lit "warning"; text := lit "Avoid dictionary words" |}
      recommendations in
  let recommendations :=
    pushIf (AdvancedAnalyzer.personal patterns)
      {| type := lit "warning"; text := lit "Avoid personal information like dates" |}
      recommendations in
  let recommendations :=
    pushIf (AdvancedAnalyzer.repeated patterns)
      {| type := lit "info"; text := lit "Avoid repeated character patterns" |}
      recommendations in
  let recommendations :=
    pushIf (below (Analysis.entropy basic) 50)
      {| type := lit "info"; text := lit "Increase password complexity" |}
      recommendations in
  recommendations.

(** The object built by [performAdvancedAnalysis]: the fields of the
    basic analysis and four more. *)
Record AdvancedAnalysis := {
  basicAnalysis : Analysis.t;
  patterns : AdvancedAnalyzer.Patterns;
  isCommon : bool;
  isLeaked : bool;
  recommendations : list Recommendation
}.

Definition performAdvancedAnalysis (password : str) : AdvancedAnalysis :=
  let basicAnalysis := analyzePassword password in
  let patterns := AdvancedAnalyzer.analyzePattern password in
  let isCommon := PasswordTester.isCommonPassword password in
  let isLeaked := PasswordTester.checkAgainstLeaks password in
  {| basicAnalysis := basicAnalysis;
     patterns := patterns;
     isCommon := isCommon;
     isLeaked := isLeaked;
     recommendations :=
       getAdvancedRecommendations basicAnalysis patterns isCommon isLeaked |}.

(** ** Notions of the specification

    The definitions of this section follow the words of the
    specification; the theorems compare them with the script. *)

(** The number of [include*] flags that are set. *)
Definition numSelectedClasses (options : Options.t) : Z :=
  Z.b2z (Options.includeUppercase options) +
  Z.b2z (Options.includeLowercase options) +
  Z.b2z (Options.includeNumbers options) +
  Z.b2z (Options.includeSymbols options).

(** A class after the exclusion options: the similar characters go from
    the letters and the digits, the ambiguous ones from the symbols. *)
Definition filteredClass (exclude : bool) (chars toRemove : str) : str :=
  if exclude then removeChars chars toRemove else chars.

(** The filtered strings of the selected classes, in class order. *)
Definition selectedClasses (options : Options.t) : list str :=
  (if Options.includeUppercase options
   then [filteredClass (Options.excludeSimilar options)
           (uppercase charSets) (similar charSets)] else []) ++
  (if Options.includeLowercase options
   then [filteredClass (Options.excludeSimilar options)
           (lowercase charSets) (similar charSets)] else []) ++
  (if Options.includeNumbers options
   then [filteredClass (Options.excludeSimilar options)
           (numbers charSets) (similar charSets)] else []) ++
  (if Options.includeSymbols options
   then [filteredClass (Options.excludeAmbiguous options)
           (symbols charSets) (ambiguous charSets)] else []).

(** The summed nominal alphabet sizes of the classes present. *)
Definition nominalAlphabet (password : str) : Z :=
  (if existsb isLower password then 26 else 0) +
  (if existsb isUpper password then 26 else 0) +
  (if existsb isDigit password then 10 else 0) +
  (if existsb isSymbol password then 32 else 0).

(** [entropyBits = length * log2(summed alphabet size)], a real number. *)
Definition entropyBits (password : str) : R :=
  (INR (List.length password) * (ln (IZR (nominalAlphabet password)) / ln 2))%R.

Definition ascii_eq_dec : EqDecision ascii := ascii_dec.
#[export] Existing Instance ascii_eq_dec.

(** The score as the sum of the specification, clamped to [0, 100]. A
    repeated character exists when the characters are not all distinct. *)
Definition statedScore (password : str) : Z :=
  let len := Z.of_nat (List.length password) in
  Z.max 0 (Z.min 100
    (0
     + (if Z_le_dec 8 len then 25 else 0)
     + (if Z_le_dec 12 len then 15 else 0)
     + (if Z_le_dec 16 len then 10 else 0)
     + (if existsb isUpper password then 10 else 0)
     + (if existsb isLower password then 10 else 0)
     + (if existsb isDigit password then 10 else 0)
     + (if existsb isSymbol password then 15 else 0)
     + (if Rlt_dec 40 (entropyBits password) then 10 else 0)
     + (if Rlt_dec 60 (entropyBits password) then 5 else 0)
     - (if decide (NoDup password) then 0 else 10)
     - (if hasSequentialChars password then 15 else 0)
     - (if Z_lt_dec len 8 then 20 else 0)))%Z.

(** The seven findings of the extended analysis in their fixed order,
    each with its predicate, its tag and its text. *)
Definition findings (password : str) : list (bool * Recommendation) :=
  [(PasswordTester.isCommonPassword password,
    {| type := lit "critical"; text := lit "Avoid common passwords" |});
   (PasswordTester.checkAgainstLeaks password,
    {| type := lit "critical"; text := lit "This pattern appears in data breaches" |});
   (AdvancedAnalyzer.isKeyboardPattern password,
    {| type := lit "warning"; text := lit "Avoid keyboard patterns" |});
   (AdvancedAnalyzer.isDictionaryWord password,
    {| type := lit "warning"; text := lit "Avoid dictionary words" |});
   (AdvancedAnalyzer.mightBePersonalInfo password,
    {| type := lit "warning"; text := lit "Avoid personal information like dates" |});
   (AdvancedAnalyzer.hasRepeatedSubstring password,
    {| type := lit "info"; text := lit "Avoid repeated character patterns" |});
   (below (calculateEntropy password) 50,
    {| type := lit "info"; text := lit "Increase password complexity" |})].

(** The six strength levels. *)
Definition levels : list str :=
  [lit "Excellent"; lit "Strong"; lit "Good"; lit "Fair"; lit "Weak";
   lit "Very Weak"].

(** [k] points when the condition holds. *)
Definition points (cond : bool) (k : Z) : Z := if cond then k else 0%Z.

(** An array entry that is a character of [chars], not [undefined]. *)
Definition drawnFrom (chars : str) (entry : option ascii) : Prop :=
  exists c, entry = Some c /\ In c chars.

(** ** Class PasswordGenerator: history, display and batches *)

(** [password.length > 30 ? password.substring(0, 30) + '...' : password] *)
Definition truncatePassword (password : str) : str :=
  if Nat.ltb 30 (List.length password)
  then substring password 0 30 ++ lit "..."
  else password.

(** [array.splice(index, 1)] for an integer [index]: a negative index
    counts from the end, the start is clamped to the array, and one entry
    is removed when there is one at the start. *)
Definition splice1 {A} (array : list A) (index : Z) : list A :=
  let len := Z.of_nat (List.length array) in
  let start := if (index <? 0)%Z then Z.max (len + index) 0 else Z.min index len in
  delete (Z.to_nat start) array.

Definition removeFromHistory (index : Z) (page : Page) : Page :=
  let page := {| generatedPassword := generatedPassword page;
                 passwordHistory := splice1 (passwordHistory page) index;
                 toast := toast page;
                 panel := panel page |} in
  showToast (lit "Password removed from history") info page.

(** [clearPasswordHistory]; [confirmed] is the answer of the [confirm]
    dialog, which is only asked when the history is not empty. *)
Definition clearPasswordHistory (confirmed : bool) (page : Page) : Page :=
  match passwordHistory page with
  | [] => showToast (lit "History is already empty") info page
  | _ =>
      if confirmed then
        let page := {| generatedPassword := generatedPassword page;
                       passwordHistory := [];
                       toast := toast page;
                       panel := panel page |} in
        showToast (lit "Password history cleared") success page
      else page
  end.

(** [for (let i = 0; i < count; i++) passwords.push(this.createPassword(options))],
    with [n] rounds left. *)
Fixpoint pushPasswords (n : nat) (options : Options.t) (passwords : list str)
    : Rand (list str) :=
  match n with
  | 0 => ret passwords
  | S n' =>
      draw password := createPassword options in
      pushPasswords n' options (passwords ++ [password])
  end.

(** [generateMultiplePasswords(count)] for an integer [count], on the
    options that [getPasswordOptions] read. The second component is the
    array given to [showMultiplePasswordsModal], [None] when no modal is
    shown. *)
Definition generateMultiplePasswords (count : Z) (options : Options.t)
    (page : Page) : Rand (Page * option (list str)) :=
  if negb (validateOptions options) then
    ret (showToast (lit "Please select at least one character type!") error page,
         None)
  else
    draw passwords := pushPasswords (Z.to_nat count) options [] in
    ret (page, Some passwords).

(** ** Notions used by the further properties *)

(** A panel and a page with nothing on them, for the examples. *)
Definition blankPanel : Panel := {|
  strengthProgress := 0; strengthLabel := []; strengthScore := None;
  lengthCriterion := false; uppercaseCriterion := false;
  lowercaseCriterion := false; numberCriterion := false;
  symbolCriterion := false; lengthBonusCriterion := false;
  suggestionsList := []; suggestionsShown := false
|}.

Definition blankPage (history : list str) : Page := {|
  generatedPassword := []; passwordHistory := history;
  toast := None; panel := blankPanel
|}.

(** The history that [addToHistory] maintains: at most ten passwords,
    none twice. *)
Definition historyOk (history : list str) : Prop :=
  List.length history <= 10 /\ NoDup history.

(** A computation that takes exactly [n] numbers from the stream,
    whatever the stream. *)
Definition drawsExactly {A} (m : Rand A) (n : nat) : Prop :=
  forall (s : Source) (k : nat), snd (m s) k = s (n + k).

(** A string of ASCII characters: every code is below 128. On such a
    string [toLowerCase] changes the capitals [A] to [Z] one by one and
    nothing else. *)
Definition asciiOnly (s : str) : Prop :=
  Forall (fun c => Nat.ltb (code c) 128 = true) s.

(** The three-character windows of the keyboard rows, as
    [isKeyboardPattern] takes them. *)
Definition keyboardWindow (window : str) : Prop :=
  exists row i,
    In row AdvancedAnalyzer.keyboardRows /\
    In i (List.seq 0 (List.length row - 2)) /\
    window = substring row i (i + 3).

(** The number of characters of a password for valid options. *)
Definition passwordLength (options : Options.t) : nat :=
  Z.to_nat (numSelectedClasses options +
            Z.max 0 (Options.length options - numSelectedClasses options)).

(** * Theorems *)

(** ** Computations that draw random numbers *)

Lemma always_ret {A} (a : A) (P : A -> Prop) : P a -> always (ret a) P.
Proof. intros H s. exact H. Qed.

Lemma always_bind {A B} (m : Rand A) (k : A -> Rand B) (P : A -> Prop)
    (Q : B -> Prop) :
  always m P -> (forall a, P a -> always (k a) Q) -> always (bind m k) Q.
Proof.
  intros Hm Hk s. unfold run, bind.
  specialize (Hm s). unfold run in Hm.
  destruct (m s) as [a s']. simpl in Hm.
  apply (Hk a Hm s').
Qed.

Lemma always_weaken {A} (m : Rand A) (P Q : A -> Prop) :
  always m P -> (forall a, P a -> Q a) -> always m Q.
Proof. intros H HPQ s. apply HPQ, H. Qed.

Lemma always_True {A} (m : Rand A) : always m (fun _ => True).
Proof. intros s. exact I. Qed.

(** The index drawn by the shuffle stays at or below [i]. *)
Lemma shuffle_index_in_range (r : N) (i : nat) :
  N.to_nat (r mod N.of_nat (i + 1)) <= i.
Proof.
  assert (H : (r mod N.of_nat (i + 1) < N.of_nat (i + 1))%N)
    by (apply N.mod_lt; lia).
  lia.
Qed.

Lemma getRandomChar_drawn (charset : str) :
  charset <> [] -> always (getRandomChar charset) (drawnFrom charset).
Proof.
  intros Hne. unfold getRandomChar.
  eapply always_bind; [apply always_True|].
  intros r _. apply always_ret.
  destruct charset as [|c0 charset]; [congruence|].
  set (cs := c0 :: charset) in *.
  assert (Hlt : N.to_nat (r mod N.of_nat (List.length cs)) < List.length cs).
  { assert ((r mod N.of_nat (List.length cs) < N.of_nat (List.length cs))%N)
      by (apply N.mod_lt; simpl; lia).
    lia. }
  destruct (lookup_lt_is_Some_2 _ _ Hlt) as [c Hc].
  exists c. split; [exact Hc|].
  apply list_elem_of_In. eapply list_elem_of_lookup_2. exact Hc.
Qed.



Section SwapFacts.
Context {A : Type}.
Implicit Types (l : list A) (x y : A).

Lemma swap_length l i j : List.length (swap l i j) = List.length l.
Proof.
  unfold swap. destruct (l !! i), (l !! j); trivial.
  now rewrite !length_insert.
Qed.

Lemma insert_head_perm l j x y :
  l !! j = Some y -> Permutation (y :: <[j:=x]> l) (x :: l).
Proof.
  revert j. induction l as [|a l IH]; intros [|j] H; simpl in *; try discriminate.
  - injection H as ->. apply perm_swap.
  - etransitivity; [apply perm_swap|].
    etransitivity; [|apply perm_swap].
    constructor. now apply IH.
Qed.

Lemma swap_Permutation l i j : Permutation (swap l i j) l.
Proof.
  unfold swap.
  destruct (l !! i) as [x|] eqn:Hi; [|reflexivity].
  destruct (l !! j) as [y|] eqn:Hj; [|reflexivity].
  revert i j Hi Hj.
  induction l as [|a l IH]; intros [|i] [|j] Hi Hj; simpl in *; try discriminate.
  - injection Hi as ->. injection Hj as ->. reflexivity.
  - injection Hi as ->. now apply insert_head_perm.
  - injection Hj as ->. now apply insert_head_perm.
  - constructor. now apply IH.
Qed.
End SwapFacts.

(** ** The shuffle *)

Lemma shuffleLoop_Permutation {A} (i : nat) (array : list A) :
  always (shuffleLoop i array) (fun shuffled => Permutation shuffled array).
Proof.
  revert array. induction i as [|i IH]; intros array; simpl.
  - apply always_ret. reflexivity.
  - eapply always_bind; [apply always_True|].
    intros r _.
    eapply always_weaken; [apply IH|].
    intros shuffled H. simpl in H.
    etransitivity; [exact H|]. apply swap_Permutation.
Qed.

Lemma shuffleArray_Permutation {A} (array : list A) :
  always (shuffleArray array) (fun shuffled => Permutation shuffled array).
Proof. apply shuffleLoop_Permutation. Qed.

(** In the loop the two indices are inside the array, so that [swap]
    does exchange the two entries. *)
Lemma swap_in_range {A} (array : list A) (i j : nat) :
  j <= i -> i < List.length array ->
  exists x y, array !! i = Some x /\ array !! j = Some y /\
              swap array i j = <[j:=x]> (<[i:=y]> array).
Proof.
  intros Hji Hi.
  destruct (lookup_lt_is_Some_2 array i Hi) as [x Hx].
  destruct (lookup_lt_is_Some_2 array j ltac:(lia)) as [y Hy].
  exists x, y. unfold swap. now rewrite Hx, Hy.
Qed.

(** C10: for every non-empty array and every stream of random draws, the
    array returned by the Fisher-Yates shuffle is a permutation of its
    input: the same entries with the same multiplicities. *)
Theorem shuffleArray_is_permutation {A} (array : list A) (rnd : Source) :
  array <> [] ->
  Permutation (run (shuffleArray array) rnd) array.
Proof. intros _. apply shuffleArray_Permutation. Qed.

Lemma shuffleArray_is_permutation_witness :
  let array := [1; 2; 3; 4] in
  let rnd : Source := fun k => N.of_nat (3 * k + 2) in
  array <> [] /\ run (shuffleArray array) rnd = [2; 1; 4; 3] /\
  Permutation (run (shuffleArray array) rnd) array.
Proof.
  intros array rnd.
  split; [discriminate|]. split; [reflexivity|].
  apply (shuffleArray_is_permutation array rnd). discriminate.
Defined.

(** ** The generator *)

Lemma join_drawn (chars : str) (array : list (option ascii)) :
  Forall (drawnFrom chars) array ->
  List.length (join array) = List.length array /\
  Forall (fun c => In c chars) (join array).
Proof.
  induction 1 as [|e array [c [-> Hc]] _ [IHl IHf]]; simpl.
  - split; [reflexivity|constructor].
  - split; [now rewrite IHl|now constructor].
Qed.

Lemma join_In (c : ascii) (array : list (option ascii)) :
  In (Some c) array -> In c (join array).
Proof.
  unfold join. intros H. apply in_flat_map. exists (Some c). split; [exact H|now left].
Qed.

Lemma pushRandomChars_spec (n : nat) (charset : str)
    (randomChars : list (option ascii)) :
  (n <> 0 -> charset <> []) ->
  always (pushRandomChars n charset randomChars)
    (fun result => exists pushed, result = randomChars ++ pushed /\
       List.length pushed = n /\ Forall (drawnFrom charset) pushed).
Proof.
  revert randomChars. induction n as [|n IH]; intros randomChars Hne; simpl.
  - apply always_ret. exists []. rewrite app_nil_r. repeat split. constructor.
  - eapply always_bind; [apply getRandomChar_drawn; now apply Hne|].
    intros c Hc.
    eapply always_weaken; [apply IH; intros _; now apply Hne|].
    intros result [pushed [-> [Hlen Hall]]]. simpl.
    exists (c :: pushed). rewrite <- app_assoc. simpl.
    repeat split; [now rewrite Hlen|now constructor].
Qed.

Lemma addClass_spec (include exclude : bool) (chars toRemove charset : str)
    (guaranteedChars : list (option ascii)) :
  filteredClass exclude chars toRemove <> [] ->
  always (addClass include exclude chars toRemove (charset, guaranteedChars))
    (fun acc =>
       let classes := if include then [filteredClass exclude chars toRemove] else [] in
       exists pushed,
         acc = (charset ++ concat classes, guaranteedChars ++ pushed) /\
         Forall2 (fun entry class => drawnFrom class entry) pushed classes).
Proof.
  intros Hne. unfold addClass. destruct include.
  - fold (filteredClass exclude chars toRemove).
    eapply always_bind; [apply getRandomChar_drawn, Hne|].
    intros c Hc. apply always_ret. exists [c]. simpl. rewrite app_nil_r.
    split; [reflexivity|]. repeat constructor. exact Hc.
  - apply always_ret. exists []. simpl. rewrite !app_nil_r.
    split; [reflexivity|constructor].
Qed.

Lemma filteredClass_nonempty (excludeSim excludeAmb : bool) :
  filteredClass excludeSim (uppercase charSets) (similar charSets) <> [] /\
  filteredClass excludeSim (lowercase charSets) (similar charSets) <> [] /\
  filteredClass excludeSim (numbers charSets) (similar charSets) <> [] /\
  filteredClass excludeAmb (symbols charSets) (ambiguous charSets) <> [].
Proof. destruct excludeSim, excludeAmb; vm_compute; repeat split; discriminate. Qed.

Lemma selectedClasses_length (options : Options.t) :
  Z.of_nat (List.length (selectedClasses options)) = numSelectedClasses options.
Proof.
  unfold selectedClasses, numSelectedClasses.
  destruct (Options.includeUppercase options), (Options.includeLowercase options),
    (Options.includeNumbers options), (Options.includeSymbols options); reflexivity.
Qed.

Lemma selectedClasses_valid (options : Options.t) :
  validateOptions options = true -> concat (selectedClasses options) <> [].
Proof.
  unfold validateOptions, selectedClasses.
  destruct (filteredClass_nonempty (Options.excludeSimilar options)
              (Options.excludeAmbiguous options)) as (Hu & Hl & Hn & Hs).
  destruct (Options.includeUppercase options), (Options.includeLowercase options),
    (Options.includeNumbers options), (Options.includeSymbols options);
    cbn [orb concat app]; intros Hv; try discriminate Hv; intros H;
    rewrite ?app_nil_r in H;
    repeat match type of H with
           | _ ++ _ = [] => apply List.app_eq_nil in H; destruct H as [? H]
           end; congruence.
Qed.

(** The two arrays of [createPassword]: one guaranteed character of each
    selected class, and [length - guaranteedChars.length] characters of
    the whole character set (none when that number is negative). *)
Lemma drawChars_spec (options : Options.t) :
  validateOptions options = true ->
  always (drawChars options) (fun chars =>
    Forall2 (fun entry class => drawnFrom class entry)
            (fst chars) (selectedClasses options) /\
    List.length (snd chars) =
      Z.to_nat (Options.length options - numSelectedClasses options) /\
    Forall (drawnFrom (concat (selectedClasses options))) (snd chars)).
Proof.
  intros Hvalid.
  pose proof (selectedClasses_valid options Hvalid) as Hcharset.
  pose proof (selectedClasses_length options) as Hnum.
  destruct (filteredClass_nonempty (Options.excludeSimilar options)
              (Options.excludeAmbiguous options)) as (Hu & Hl & Hn & Hs).
  unfold drawChars.
  eapply always_bind; [apply addClass_spec, Hu|].
  intros ? (g1 & -> & H1).
  eapply always_bind; [apply addClass_spec, Hl|].
  intros ? (g2 & -> & H2).
  eapply always_bind; [apply addClass_spec, Hn|].
  intros ? (g3 & -> & H3).
  eapply always_bind; [apply addClass_spec, Hs|].
  intros ? (g4 & -> & H4).
  cbv beta iota zeta in *.
  match goal with
  | |- always (bind (pushRandomChars (Z.to_nat (_ - Z.of_nat (List.length ?g))) ?cs _) _) _ =>
      assert (Hg : Forall2 (fun entry class => drawnFrom class entry)
                     g (selectedClasses options));
      [|assert (Hc : cs = concat (selectedClasses options))]
  end.
  { rewrite app_nil_l, <- !app_assoc. unfold selectedClasses.
    repeat apply Forall2_app; assumption. }
  { unfold selectedClasses. now rewrite !concat_app, app_nil_l, !app_assoc. }
  rewrite Hc.
  pose proof (Forall2_length _ _ _ Hg) as Hlen.
  eapply always_bind.
  { apply pushRandomChars_spec. intros _. exact Hcharset. }
  intros randomChars (pushed & -> & Hp & Hall).
  apply always_ret. simpl.
  split; [exact Hg|]. split; [|exact Hall].
  rewrite Hp. f_equal. lia.
Qed.

Lemma drawnFrom_class_charset (classes : list str) (class : str)
    (entry : option ascii) :
  In class classes -> drawnFrom class entry -> drawnFrom (concat classes) entry.
Proof.
  intros Hin (c & -> & Hc). exists c. split; [reflexivity|].
  apply in_concat. exists class. now split.
Qed.

Lemma guaranteed_drawn (classes : list str) (guaranteedChars : list (option ascii)) :
  Forall2 (fun entry class => drawnFrom class entry) guaranteedChars classes ->
  Forall (drawnFrom (concat classes)) guaranteedChars /\
  Forall (fun class => exists c, In c class /\ In (Some c) guaranteedChars) classes.
Proof.
  induction 1 as [|entry class g classes Hd _ [IH1 IH2]].
  - split; constructor.
  - split.
    + constructor.
      * eapply drawnFrom_class_charset; [now left|exact Hd].
      * eapply Forall_impl; [exact IH1|].
        intros e (c & -> & Hc). exists c. split; [reflexivity|].
        cbn [concat]. apply in_or_app. now right.
    + constructor.
      * destruct Hd as (c & -> & Hc). exists c. split; [exact Hc|now left].
      * eapply Forall_impl; [exact IH2|].
        intros cl (c & Hc & Hin). exists c. split; [exact Hc|now right].
Qed.

(** How a run of [createPassword] is made: the two arrays of
    [drawChars], shuffled and joined. *)
Lemma createPassword_run (options : Options.t) (rnd : Source) :
  validateOptions options = true ->
  exists guaranteedChars randomChars shuffled,
    run (drawChars options) rnd = (guaranteedChars, randomChars) /\
    Forall2 (fun entry class => drawnFrom class entry)
            guaranteedChars (selectedClasses options) /\
    List.length randomChars =
      Z.to_nat (Options.length options - numSelectedClasses options) /\
    Forall (drawnFrom (concat (selectedClasses options))) randomChars /\
    Permutation shuffled (guaranteedChars ++ randomChars) /\
    run (createPassword options) rnd = join shuffled.
Proof.
  intros Hvalid.
  pose proof (drawChars_spec options Hvalid rnd) as Hd.
  unfold createPassword, run, bind in *.
  destruct (drawChars options rnd) as [[g r] s']. simpl in Hd.
  destruct Hd as (Hg & Hr & Hall).
  pose proof (shuffleArray_Permutation (g ++ r) s') as Hperm.
  unfold run in Hperm.
  destruct (shuffleArray (g ++ r) s') as [shuffled s''].
  exists g, r, shuffled. simpl in *. repeat split; assumption.
Qed.

(** The password has one character for each entry of the two arrays, all
    of the character set, and holds a character of each selected class. *)
Lemma createPassword_chars (options : Options.t) (rnd : Source) :
  validateOptions options = true ->
  Z.of_nat (List.length (run (createPassword options) rnd)) =
    (numSelectedClasses options +
     Z.max 0 (Options.length options - numSelectedClasses options))%Z /\
  Forall (fun c => In c (concat (selectedClasses options)))
         (run (createPassword options) rnd) /\
  Forall (fun class => exists c, In c class /\
                                 In c (run (createPassword options) rnd))
         (selectedClasses options).
Proof.
  intros Hvalid.
  destruct (createPassword_run options rnd Hvalid)
    as (g & r & shuffled & _ & Hg & Hr & Hall & Hperm & ->).
  destruct (guaranteed_drawn _ _ Hg) as [Hgall Hcls].
  assert (Hsh : Forall (drawnFrom (concat (selectedClasses options))) shuffled).
  { apply List.Forall_forall. intros e He.
    apply (Permutation_in _ Hperm) in He.
    apply in_app_or in He. destruct He as [He|He].
    - exact (proj1 (List.Forall_forall _ _) Hgall e He).
    - exact (proj1 (List.Forall_forall _ _) Hall e He). }
  destruct (join_drawn _ _ Hsh) as [Hlen Hin].
  split; [|split].
  - rewrite Hlen, (Permutation_length Hperm), length_app, Hr.
    pose proof (Forall2_length _ _ _ Hg) as Hgl.
    pose proof (selectedClasses_length options). lia.
  - exact Hin.
  - eapply Forall_impl; [exact Hcls|].
    intros class (c & Hc & Hcg). exists c. split; [exact Hc|].
    apply join_In. apply (Permutation_in _ (Permutation_sym Hperm)).
    apply in_or_app. now left.
Qed.

Lemma addToHistory_generatedPassword (password : str) (page : Page) :
  generatedPassword (addToHistory password page) = generatedPassword page.
Proof. unfold addToHistory. now destruct (existsb _ _). Qed.

(** With a character class selected, [generatePassword] shows the
    password of [createPassword] and reports success. *)
Lemma generatePassword_valid (options : Options.t) (page : Page) (rnd : Source) :
  validateOptions options = true ->
  generatedPassword (run (generatePassword options page) rnd) =
    run (createPassword options) rnd /\
  toast (run (generatePassword options page) rnd) =
    Some (lit "Password generated successfully!", success).
Proof.
  intros Hvalid. unfold generatePassword, run, bind. rewrite Hvalid.
  cbn [negb]. destruct (createPassword options rnd) as [password s'].
  cbn [ret fst showToast generatedPassword toast].
  now rewrite addToHistory_generatedPassword.
Qed.

(** C1: for valid options whose length is at least the number of
    selected classes, the generated password has exactly
    [options.length] characters: as many guaranteed characters as
    selected classes, plus [max(0, length - numSelectedClasses)] further
    ones. *)
Theorem generate_length (options : Options.t) (rnd : Source) :
  validateOptions options = true ->
  (numSelectedClasses options <= Options.length options)%Z ->
  Z.of_nat (List.length (fst (run (drawChars options) rnd))) =
    numSelectedClasses options /\
  Z.of_nat (List.length (snd (run (drawChars options) rnd))) =
    Z.max 0 (Options.length options - numSelectedClasses options) /\
  Z.of_nat (List.length (run (createPassword options) rnd)) =
    Options.length options /\
  forall page,
    generatedPassword (run (generatePassword options page) rnd) =
      run (createPassword options) rnd.
Proof.
  intros Hvalid Hlen.
  destruct (createPassword_run options rnd Hvalid)
    as (g & r & shuffled & -> & Hg & Hr & _).
  pose proof (Forall2_length _ _ _ Hg) as Hgl.
  pose proof (selectedClasses_length options) as Hnum.
  destruct (createPassword_chars options rnd Hvalid) as (Hpw & _).
  cbn [fst snd]. repeat split; try lia.
  intros page. now apply generatePassword_valid.
Qed.

Lemma generate_length_witness :
  let options := {| Options.length := 12;
                    Options.includeUppercase := true;
                    Options.includeLowercase := true;
                    Options.includeNumbers := true;
                    Options.includeSymbols := true;
                    Options.excludeSimilar := true;
                    Options.excludeAmbiguous := true |} in
  let rnd : Source := fun k => (7919 * N.of_nat k + 13)%N in
  validateOptions options = true /\
  (numSelectedClasses options <= Options.length options)%Z /\
  run (createPassword options) rnd = lit "q5-eZFj^-APn" /\
  Z.of_nat (List.length (run (createPassword options) rnd)) =
    Options.length options.
Proof.
  intros options rnd.
  split; [reflexivity|]. split; [vm_compute; discriminate|].
  split; [vm_compute; reflexivity|].
  apply (generate_length options rnd); [reflexivity|vm_compute; discriminate].
Defined.

(** C2, as stated, fails: with length 1 and two classes selected the
    password has two characters. *)
Lemma generate_truncates_counterexample :
  let options := {| Options.length := 1;
                    Options.includeUppercase := true;
                    Options.includeLowercase := true;
                    Options.includeNumbers := false;
                    Options.includeSymbols := false;
                    Options.excludeSimilar := false;
                    Options.excludeAmbiguous := false |} in
  let rnd : Source := fun _ => 0%N in
  validateOptions options = true /\
  (Options.length options < numSelectedClasses options)%Z /\
  run (createPassword options) rnd = lit "aA" /\
  Z.of_nat (List.length (run (createPassword options) rnd)) <>
    Options.length options.
Proof.
  intros options rnd.
  split; [reflexivity|]. split; [reflexivity|].
  split; [vm_compute; reflexivity|]. vm_compute. discriminate.
Qed.

Lemma join_Some (chars : str) (array : list (option ascii)) :
  Forall (drawnFrom chars) array -> map Some (join array) = array.
Proof.
  induction 1 as [|entry array (c & -> & _) _ IH]; [reflexivity|].
  cbn [join flat_map app map]. f_equal. exact IH.
Qed.

(** C2, amended: when [options.length] is smaller than the number of
    selected classes, no further character is drawn and every guaranteed
    character is kept: the password is made of the guaranteed characters
    and of nothing else, one drawn from each selected class, so that it
    has exactly one character for each selected class, more than the
    requested length. *)
Theorem generate_short_length (options : Options.t) (rnd : Source) :
  validateOptions options = true ->
  (Options.length options < numSelectedClasses options)%Z ->
  snd (run (drawChars options) rnd) = [] /\
  Forall2 (fun entry class => drawnFrom class entry)
          (fst (run (drawChars options) rnd)) (selectedClasses options) /\
  Permutation (map Some (run (createPassword options) rnd))
              (fst (run (drawChars options) rnd)) /\
  Z.of_nat (List.length (run (createPassword options) rnd)) =
    numSelectedClasses options /\
  (Options.length options <
     Z.of_nat (List.length (run (createPassword options) rnd)))%Z.
Proof.
  intros Hvalid Hlen.
  destruct (createPassword_run options rnd Hvalid)
    as (g & r & shuffled & -> & Hg & Hr & _ & Hperm & Hpw).
  destruct (createPassword_chars options rnd Hvalid) as (Hlength & _).
  assert (Hnil : r = []) by (apply length_zero_iff_nil; lia).
  subst r. rewrite app_nil_r in Hperm. cbn [fst snd].
  split; [reflexivity|]. split; [exact Hg|]. split; [|lia].
  rewrite Hpw.
  destruct (guaranteed_drawn _ _ Hg) as [Hall _].
  assert (Hsh : Forall (drawnFrom (concat (selectedClasses options))) shuffled).
  { apply List.Forall_forall. intros e He.
    apply (Permutation_in _ Hperm) in He.
    exact (proj1 (List.Forall_forall _ _) Hall e He). }
  rewrite (join_Some _ _ Hsh). exact Hperm.
Qed.

Lemma generate_short_length_witness :
  let options := {| Options.length := 2;
                    Options.includeUppercase := true;
                    Options.includeLowercase := false;
                    Options.includeNumbers := true;
                    Options.includeSymbols := true;
                    Options.excludeSimilar := false;
                    Options.excludeAmbiguous := false |} in
  let rnd : Source := fun k => N.of_nat (5 * k + 1) in
  validateOptions options = true /\
  (Options.length options < numSelectedClasses options)%Z /\
  fst (run (drawChars options) rnd) =
    [Some "B"%char; Some "6"%char; Some "+"%char] /\
  run (createPassword options) rnd = lit "B+6" /\
  Permutation (map Some (run (createPassword options) rnd))
              (fst (run (drawChars options) rnd)) /\
  Z.of_nat (List.length (run (createPassword options) rnd)) = 3%Z.
Proof.
  intros options rnd.
  split; [reflexivity|]. split; [reflexivity|].
  split; [vm_compute; reflexivity|]. split; [vm_compute; reflexivity|].
  destruct (generate_short_length options rnd eq_refl eq_refl)
    as (_ & _ & Hperm & Hlen & _).
  split; [exact Hperm|exact Hlen].
Defined.

(** C3: for valid options whose length is at least the number of
    selected classes, the password holds a character of each selected
    class, as the exclusion options filter it, whatever the random
    draws. *)
Theorem generate_has_each_class (options : Options.t) (rnd : Source) :
  validateOptions options = true ->
  (numSelectedClasses options <= Options.length options)%Z ->
  Forall (fun class => exists c, In c class /\
                                 In c (run (createPassword options) rnd))
         (selectedClasses options).
Proof.
  intros Hvalid _. now apply createPassword_chars.
Qed.

Lemma generate_has_each_class_witness :
  let options := {| Options.length := 5;
                    Options.includeUppercase := false;
                    Options.includeLowercase := true;
                    Options.includeNumbers := true;
                    Options.includeSymbols := false;
                    Options.excludeSimilar := true;
                    Options.excludeAmbiguous := false |} in
  let rnd : Source := fun k => N.of_nat (11 * k + 3) in
  validateOptions options = true /\
  (numSelectedClasses options <= Options.length options)%Z /\
  Forall (fun class => exists c, In c class /\
                                 In c (run (createPassword options) rnd))
         [lit "abcdefghijkmnpqrstuvwxyz"; lit "23456789"].
Proof.
  intros options rnd.
  split; [reflexivity|]. split; [vm_compute; discriminate|].
  apply (generate_has_each_class options rnd); [reflexivity|vm_compute; discriminate].
Defined.

Lemma includesChar_In (s : str) (c : ascii) :
  includesChar s c = true <-> In c s.
Proof.
  unfold includesChar. rewrite existsb_exists. split.
  - intros (x & Hx & Heq). apply Ascii.eqb_eq in Heq. now subst.
  - intros H. exists c. split; [exact H|apply Ascii.eqb_refl].
Qed.

Lemma removeChars_In (charset charsToRemove : str) (c : ascii) :
  In c (removeChars charset charsToRemove) <->
  In c charset /\ ~ In c charsToRemove.
Proof.
  unfold removeChars. rewrite filter_In, negb_true_iff.
  split; intros [Hc Hr]; (split; [exact Hc|]).
  - intros Hin. apply includesChar_In in Hin. congruence.
  - destruct (includesChar charsToRemove c) eqn:E; [|reflexivity].
    apply includesChar_In in E. contradiction.
Qed.

(** The symbols are never filtered for similar characters; they hold
    none. *)
Lemma symbols_not_similar (c : ascii) :
  In c (symbols charSets) -> ~ In c (similar charSets).
Proof.
  intros Hc Hs. apply includesChar_In in Hs.
  assert (H : forallb (fun c => negb (includesChar (similar charSets) c))
                      (symbols charSets) = true) by reflexivity.
  rewrite forallb_forall in H. specialize (H c Hc).
  rewrite Hs in H. discriminate.
Qed.

Lemma In_concat_optional {A} (b : bool) (l : list A) (x : A) :
  In x (concat (if b then [l] else [])) -> b = true /\ In x l.
Proof.
  destruct b; cbn [concat]; [|contradiction].
  rewrite app_nil_r. now split.
Qed.

Lemma selectedClasses_not_similar (options : Options.t) (c : ascii) :
  Options.excludeSimilar options = true ->
  In c (concat (selectedClasses options)) -> ~ In c (similar charSets).
Proof.
  intros Hex. unfold selectedClasses.
  rewrite !concat_app, !in_app_iff.
  intros [H|[H|[H|H]]]; apply In_concat_optional in H; destruct H as [_ H];
    unfold filteredClass in H; rewrite ?Hex in H.
  - now apply removeChars_In in H.
  - now apply removeChars_In in H.
  - now apply removeChars_In in H.
  - apply symbols_not_similar.
    destruct (Options.excludeAmbiguous options); [|exact H].
    now apply removeChars_In in H.
Qed.

(** C4: with [excludeSimilar] set, no character of the similar set
    [0Oo1lI] is at any position of the generated password, whatever the
    classes included and the random draws. *)
Theorem generate_excludes_similar (options : Options.t) (rnd : Source) :
  validateOptions options = true ->
  Options.excludeSimilar options = true ->
  Forall (fun c => ~ In c (similar charSets)) (run (createPassword options) rnd).
Proof.
  intros Hvalid Hex.
  destruct (createPassword_chars options rnd Hvalid) as (_ & Hin & _).
  eapply Forall_impl; [exact Hin|].
  intros c Hc. now apply (selectedClasses_not_similar options).
Qed.

Lemma generate_excludes_similar_witness :
  let options := {| Options.length := 20;
                    Options.includeUppercase := true;
                    Options.includeLowercase := true;
                    Options.includeNumbers := true;
                    Options.includeSymbols := true;
                    Options.excludeSimilar := true;
                    Options.excludeAmbiguous := false |} in
  let rnd : Source := fun k => (104729 * N.of_nat k + 7)%N in
  validateOptions options = true /\
  Options.excludeSimilar options = true /\
  Forall (fun c => ~ In c (lit "0Oo1lI")) (run (createPassword options) rnd).
Proof.
  intros options rnd.
  split; [reflexivity|]. split; [reflexivity|].
  apply (generate_excludes_similar options rnd); reflexivity.
Defined.

(** C7: when the four [include*] flags are false, [generatePassword]
    produces no password: it only shows the error asking for a character
    type, and draws no random number. This is the only case that
    [validateOptions] rejects. *)
Theorem generate_rejects_no_class :
  (forall options,
     validateOptions options = false <->
     Options.includeUppercase options = false /\
     Options.includeLowercase options = false /\
     Options.includeNumbers options = false /\
     Options.includeSymbols options = false) /\
  (forall length excludeSimilar excludeAmbiguous page rnd,
     let options := {| Options.length := length;
                       Options.includeUppercase := false;
                       Options.includeLowercase := false;
                       Options.includeNumbers := false;
                       Options.includeSymbols := false;
                       Options.excludeSimilar := excludeSimilar;
                       Options.excludeAmbiguous := excludeAmbiguous |} in
     generatePassword options page rnd =
       (showToast (lit "Please select at least one character type!") error page,
        rnd) /\
     generatedPassword (run (generatePassword options page) rnd) =
       generatedPassword page /\
     passwordHistory (run (generatePassword options page) rnd) =
       passwordHistory page /\
     panel (run (generatePassword options page) rnd) = panel page /\
     toast (run (generatePassword options page) rnd) =
       Some (lit "Please select at least one character type!", error)).
Proof.
  split.
  - intros options. unfold validateOptions.
    destruct (Options.includeUppercase options), (Options.includeLowercase options),
      (Options.includeNumbers options), (Options.includeSymbols options);
      cbn; intuition congruence.
  - intros. repeat split.
Qed.

(** ** Repeated characters *)

Lemma indexOfFrom_first (pre suf : str) (x : ascii) (k : Z) :
  ~ In x pre ->
  indexOfFrom (pre ++ x :: suf) x k = (k + Z.of_nat (List.length pre))%Z.
Proof.
  revert k. induction pre as [|c pre IH]; intros k Hnin; cbn [app indexOfFrom].
  - rewrite Ascii.eqb_refl. cbn. lia.
  - destruct (Ascii.eqb c x) eqn:E.
    + apply Ascii.eqb_eq in E. subst. exfalso. apply Hnin. now left.
    + rewrite IH; [cbn [List.length]; lia|].
      intros H. apply Hnin. now right.
Qed.

Lemma indexOfFrom_before (pre suf : str) (x : ascii) (k : Z) :
  In x pre ->
  (indexOfFrom (pre ++ suf) x k < k + Z.of_nat (List.length pre))%Z.
Proof.
  revert k. induction pre as [|c pre IH]; intros k Hin; [contradiction|].
  cbn [app indexOfFrom List.length].
  destruct (Ascii.eqb c x) eqn:E; [lia|].
  destruct Hin as [->|Hin]; [rewrite Ascii.eqb_refl in E; discriminate|].
  specialize (IH (k + 1)%Z Hin). lia.
Qed.

(** The filter of [hasRepeatedChars], started after the prefix [pre],
    keeps nothing exactly when the rest has no character twice and none
    of [pre]. *)
Lemma filterIndexed_repeated (pre suf : str) :
  filterIndexed
    (fun char index => negb (Z.eqb (indexOf (pre ++ suf) char) index))
    suf (Z.of_nat (List.length pre)) = [] <->
  NoDup suf /\ (forall x, In x suf -> ~ In x pre).
Proof.
  revert pre. induction suf as [|x suf IH]; intros pre.
  - cbn. split; [|reflexivity]. intros _. split; [constructor|contradiction].
  - cbn [filterIndexed]. destruct (in_dec ascii_dec x pre) as [Hin|Hnin].
    + pose proof (indexOfFrom_before pre (x :: suf) x 0 Hin) as Hlt.
      unfold indexOf.
      destruct (Z.eqb_spec (indexOfFrom (pre ++ x :: suf) x 0)
                           (Z.of_nat (List.length pre))) as [E|E]; [lia|].
      cbn [negb]. split; [discriminate|].
      intros [_ H]. exfalso. apply (H x); [now left|exact Hin].
    + unfold indexOf at 1. rewrite (indexOfFrom_first pre suf x 0 Hnin).
      rewrite Z.add_0_l, Z.eqb_refl. cbn [negb].
      specialize (IH (pre ++ [x])).
      rewrite <- app_assoc in IH. cbn [app] in IH.
      rewrite length_app in IH. cbn [List.length] in IH.
      replace (Z.of_nat (List.length pre + 1)) with (Z.of_nat (List.length pre) + 1)%Z
        in IH by lia.
      rewrite IH. split.
      * intros [Hnd H]. split; [apply NoDup_cons; split; [|exact Hnd]|].
        -- intros Hx. apply list_elem_of_In in Hx.
           apply (H x Hx). apply in_or_app. right. now left.
        -- intros y [<-|Hy]; [exact Hnin|].
           intros Hp. apply (H y Hy). apply in_or_app. now left.
      * intros [Hc H]. apply NoDup_cons in Hc. destruct Hc as [Hx Hnd].
        rewrite list_elem_of_In in Hx.
        split; [exact Hnd|].
        intros y Hy Hp. apply in_app_or in Hp. destruct Hp as [Hp|[<-|[]]].
        -- apply (H y); [now right|exact Hp].
        -- contradiction.
Qed.

(** [hasRepeatedChars] says that some character is at two positions. *)
Lemma hasRepeatedChars_NoDup (password : str) :
  hasRepeatedChars password = true <-> ~ NoDup password.
Proof.
  unfold hasRepeatedChars.
  pose proof (filterIndexed_repeated [] password) as H. cbn [app List.length] in H.
  change (Z.of_nat 0) with 0%Z in H.
  destruct (filterIndexed _ password 0) as [|c l] eqn:E.
  - cbn. split; [discriminate|]. intros Hn. exfalso. apply Hn.
    now apply H.
  - cbn. split; [|reflexivity]. intros _ Hnd.
    assert (Hnil : c :: l = []) by (apply H; split; [exact Hnd|intros ? _ []]).
    discriminate.
Qed.

(** ** The entropy *)

Open Scope R_scope.

Lemma ln_2_pos : 0 < ln 2.
Proof. rewrite <- ln_1. apply ln_increasing; lra. Qed.

Lemma pow_lt_log (C : R) (a b : nat) :
  0 < C -> (2 ^ a < C ^ b <-> INR a < INR b * (ln C / ln 2)).
Proof.
  intros HC. pose proof ln_2_pos as H2.
  assert (E : INR b * (ln C / ln 2) * ln 2 = INR b * ln C) by (field; lra).
  assert (Ha : 0 < 2 ^ a) by (apply pow_lt; lra).
  assert (Hb : 0 < C ^ b) by (apply pow_lt; exact HC).
  split; intros H.
  - apply (Rmult_lt_reg_r (ln 2)); [exact H2|]. rewrite E.
    rewrite <- !ln_pow by lra. now apply ln_increasing.
  - apply ln_lt_inv; [exact Ha|exact Hb|].
    rewrite !ln_pow by lra. rewrite <- E.
    now apply Rmult_lt_compat_r.
Qed.

Lemma IZR_N_pow (c n : N) :
  IZR (Z.of_N (c ^ n)) = IZR (Z.of_N c) ^ N.to_nat n.
Proof. rewrite pow_IZR, N2Z.inj_pow, N_nat_Z. reflexivity. Qed.

Lemma INR_N (n : N) : INR (N.to_nat n) = IZR (Z.of_N n).
Proof. now rewrite INR_IZR_INZ, N_nat_Z. Qed.

(** The comparison of the model is the comparison of real numbers:
    [len * log2(charset) > k]. *)
Lemma exceeds_Bits_real (len charset k : N) :
  (0 < charset)%N ->
  exceeds (Bits len charset) k = true <->
  IZR (Z.of_N k) < IZR (Z.of_N len) * (ln (IZR (Z.of_N charset)) / ln 2).
Proof.
  intros Hc. cbn [exceeds]. rewrite N.ltb_lt.
  rewrite <- !INR_N. rewrite <- pow_lt_log.
  - rewrite INR_N. change 2 with (IZR (Z.of_N 2)).
    rewrite <- !IZR_N_pow. split; intros H.
    + apply IZR_lt. lia.
    + apply lt_IZR in H. lia.
  - rewrite INR_N. apply IZR_lt. lia.
Qed.

(** [len * log2(charset) < k] *)
Lemma below_Bits_real (len charset k : N) :
  (0 < charset)%N ->
  below (Bits len charset) k = true <->
  IZR (Z.of_N len) * (ln (IZR (Z.of_N charset)) / ln 2) < IZR (Z.of_N k).
Proof.
  intros Hc. cbn [below]. rewrite N.ltb_lt.
  pose proof ln_2_pos as H2.
  set (C := IZR (Z.of_N charset)).
  assert (HC : 0 < C) by (apply IZR_lt; lia).
  assert (E : IZR (Z.of_N len) * (ln C / ln 2) * ln 2 = IZR (Z.of_N len) * ln C)
    by (field; lra).
  assert (Hp : forall n : N, IZR (Z.of_N n) * ln C = ln (IZR (Z.of_N (charset ^ n)))).
  { intros n. rewrite IZR_N_pow, ln_pow by exact HC. now rewrite INR_N. }
  assert (Hq : IZR (Z.of_N k) * ln 2 = ln (IZR (Z.of_N (2 ^ k)))).
  { rewrite IZR_N_pow, ln_pow by (cbn; lra). now rewrite INR_N. }
  assert (Hpos : forall n, 0 < IZR (Z.of_N (charset ^ n))).
  { intros n. apply IZR_lt. assert (0 < charset ^ n)%N; [|lia].
    apply N.neq_0_lt_0, N.pow_nonzero. lia. }
  assert (Hpos2 : 0 < IZR (Z.of_N (2 ^ k))).
  { apply IZR_lt. assert (0 < 2 ^ k)%N; [|lia].
    apply N.neq_0_lt_0, N.pow_nonzero. lia. }
  split; intros H.
  - apply (Rmult_lt_reg_r (ln 2)); [exact H2|]. rewrite E, Hp, Hq.
    apply ln_increasing; [apply Hpos|]. apply IZR_lt. lia.
  - apply (Rmult_lt_compat_r (ln 2)) in H; [|exact H2].
    rewrite E, Hp, Hq in H. apply ln_lt_inv in H; [|apply Hpos|exact Hpos2].
    apply lt_IZR in H. lia.
Qed.

Close Scope R_scope.

(** ** The strength score *)

Lemma some_class_present (password : str) :
  password <> [] ->
  existsb isLower password || existsb isUpper password ||
  existsb isDigit password || existsb isSymbol password = true.
Proof.
  destruct password as [|c password]; [congruence|]. intros _.
  cbn [existsb]. unfold isSymbol.
  destruct (isUpper c), (isLower c), (isDigit c),
    (existsb isLower password), (existsb isUpper password),
    (existsb isDigit password); reflexivity.
Qed.

(** The entropy of a non-empty password is a product with a positive
    alphabet size: at least 10, the digits. *)
Lemma calculateEntropy_Bits (password : str) :
  password <> [] ->
  calculateEntropy password =
    Bits (N.of_nat (List.length password)) (Z.to_N (nominalAlphabet password)) /\
  (10 <= nominalAlphabet password)%Z.
Proof.
  intros Hne. pose proof (some_class_present password Hne) as H.
  unfold calculateEntropy, nominalAlphabet.
  destruct (existsb isLower password), (existsb isUpper password),
    (existsb isDigit password), (existsb isSymbol password);
    try discriminate H; split; (reflexivity || lia).
Qed.

Lemma entropyBits_Bits (password : str) :
  password <> [] ->
  entropyBits password =
    (IZR (Z.of_N (N.of_nat (List.length password))) *
     (ln (IZR (Z.of_N (Z.to_N (nominalAlphabet password)))) / ln 2))%R.
Proof.
  intros Hne. destruct (calculateEntropy_Bits password Hne) as [_ H].
  unfold entropyBits. rewrite INR_IZR_INZ, nat_N_Z, Z2N.id by lia. reflexivity.
Qed.

(** On a non-empty password the tests [entropy > k] and [entropy < k] of
    the script are the ones on the real number [entropyBits]. *)
Lemma exceeds_entropy (password : str) (k : N) :
  password <> [] ->
  exceeds (calculateEntropy password) k = true <->
  (IZR (Z.of_N k) < entropyBits password)%R.
Proof.
  intros Hne. destruct (calculateEntropy_Bits password Hne) as [-> H].
  rewrite (entropyBits_Bits password Hne). apply exceeds_Bits_real. lia.
Qed.

Lemma below_entropy (password : str) (k : N) :
  password <> [] ->
  below (calculateEntropy password) k = true <->
  (entropyBits password < IZR (Z.of_N k))%R.
Proof.
  intros Hne. destruct (calculateEntropy_Bits password Hne) as [-> H].
  rewrite (entropyBits_Bits password Hne). apply below_Bits_real. lia.
Qed.

(** The entropy of the empty string is [NaN]: neither above nor below
    any number. *)
Lemma calculateEntropy_empty (k : N) :
  calculateEntropy [] = NaN /\
  exceeds (calculateEntropy []) k = false /\ below (calculateEntropy []) k = false.
Proof. repeat split. Qed.

Lemma add_points (cond : bool) (score k : Z) :
  (if cond then score + k else score)%Z = (score + points cond k)%Z.
Proof. destruct cond; unfold points; lia. Qed.

Lemma sub_points (cond : bool) (score k : Z) :
  (if cond then score - k else score)%Z = (score - points cond k)%Z.
Proof. destruct cond; unfold points; lia. Qed.

(** The running [score] of [calculateStrengthScore] as one sum. *)
Lemma calculateStrengthScore_sum (analysis : Analysis.t) :
  calculateStrengthScore analysis =
  Z.max 0 (Z.min 100
    (0 + points (Analysis.length analysis >=? 8)%Z 25
       + points (Analysis.length analysis >=? 12)%Z 15
       + points (Analysis.length analysis >=? 16)%Z 10
       + points (Analysis.hasUppercase analysis) 10
       + points (Analysis.hasLowercase analysis) 10
       + points (Analysis.hasNumbers analysis) 10
       + points (Analysis.hasSymbols analysis) 15
       + points (exceeds (Analysis.entropy analysis) 40) 10
       + points (exceeds (Analysis.entropy analysis) 60) 5
       - points (Analysis.hasRepeated analysis) 10
       - points (Analysis.hasSequential analysis) 15
       - points (Analysis.length analysis <? 8)%Z 20))%Z.
Proof.
  unfold calculateStrengthScore. cbv zeta.
  now rewrite !sub_points, !add_points.
Qed.

Lemma points_sumbool {P : Prop} (cond : bool) (dec : {P} + {~ P}) (k : Z) :
  (cond = true <-> P) -> points cond k = if dec then k else 0%Z.
Proof.
  intros H. unfold points. destruct cond, dec; try reflexivity.
  - exfalso. tauto.
  - assert (false = true) by tauto. discriminate.
Qed.

Lemma analyzePassword_score (password : str) :
  Analysis.score (analyzePassword password) =
  calculateStrengthScore {|
    Analysis.length := Z.of_nat (List.length password);
    Analysis.hasUppercase := existsb isUpper password;
    Analysis.hasLowercase := existsb isLower password;
    Analysis.hasNumbers := existsb isDigit password;
    Analysis.hasSymbols := existsb isSymbol password;
    Analysis.hasRepeated := hasRepeatedChars password;
    Analysis.hasSequential := hasSequentialChars password;
    Analysis.entropy := calculateEntropy password;
    Analysis.score := 0;
    Analysis.level := lit "Very Weak" |}.
Proof. reflexivity. Qed.

(** C5: the score of a non-empty password is the sum that the
    specification states, clamped to [0, 100], with [entropyBits] the
    length times the binary logarithm of the summed nominal alphabet
    sizes of the classes present. *)
Theorem score_is_stated_sum (password : str) :
  password <> [] ->
  Analysis.score (analyzePassword password) = statedScore password.
Proof.
  intros Hne. rewrite analyzePassword_score, calculateStrengthScore_sum.
  cbn [Analysis.length Analysis.hasUppercase Analysis.hasLowercase
       Analysis.hasNumbers Analysis.hasSymbols Analysis.hasRepeated
       Analysis.hasSequential Analysis.entropy].
  unfold statedScore. cbv zeta.
  set (len := Z.of_nat (List.length password)).
  rewrite (points_sumbool (len >=? 8)%Z (Z_le_dec 8 len)) by apply Z.geb_le.
  rewrite (points_sumbool (len >=? 12)%Z (Z_le_dec 12 len)) by apply Z.geb_le.
  rewrite (points_sumbool (len >=? 16)%Z (Z_le_dec 16 len)) by apply Z.geb_le.
  rewrite (points_sumbool (len <? 8)%Z (Z_lt_dec len 8)) by apply Z.ltb_lt.
  rewrite (points_sumbool (exceeds (calculateEntropy password) 40)
             (Rlt_dec 40 (entropyBits password)))
    by (apply (exceeds_entropy password 40 Hne)).
  rewrite (points_sumbool (exceeds (calculateEntropy password) 60)
             (Rlt_dec 60 (entropyBits password)))
    by (apply (exceeds_entropy password 60 Hne)).
  replace (points (hasRepeatedChars password) 10)
    with (if decide (NoDup password) then 0 else 10)%Z.
  2:{ pose proof (hasRepeatedChars_NoDup password) as H.
      unfold points. destruct (hasRepeatedChars password), (decide (NoDup password));
        try reflexivity.
      - exfalso. now apply H.
      - assert (false = true) by (now apply H). discriminate. }
  reflexivity.
Qed.

Lemma score_is_stated_sum_witness :
  let password := lit "Tr0ub4dor&3" in
  password <> [] /\
  Analysis.score (analyzePassword password) = 75%Z /\
  statedScore password = 75%Z.
Proof.
  intros password. split; [discriminate|].
  split; [reflexivity|].
  rewrite <- (score_is_stated_sum password); [reflexivity|discriminate].
Defined.

Lemma analyzePassword_fields (password : str) :
  Analysis.length (analyzePassword password) = Z.of_nat (List.length password) /\
  Analysis.hasUppercase (analyzePassword password) = existsb isUpper password /\
  Analysis.hasLowercase (analyzePassword password) = existsb isLower password /\
  Analysis.hasNumbers (analyzePassword password) = existsb isDigit password /\
  Analysis.hasSymbols (analyzePassword password) = existsb isSymbol password /\
  Analysis.hasRepeated (analyzePassword password) = hasRepeatedChars password /\
  Analysis.hasSequential (analyzePassword password) = hasSequentialChars password /\
  Analysis.entropy (analyzePassword password) = calculateEntropy password.
Proof. repeat split. Qed.

(** With the same classes present, the entropy grows with the length. *)
Lemma exceeds_entropy_mono (password1 password2 : str) (k : N) :
  password1 <> [] ->
  List.length password1 <= List.length password2 ->
  nominalAlphabet password1 = nominalAlphabet password2 ->
  exceeds (calculateEntropy password1) k = true ->
  exceeds (calculateEntropy password2) k = true.
Proof.
  intros Hne Hlen Hsame.
  assert (Hne2 : password2 <> []).
  { destruct password1; [congruence|]. destruct password2; [cbn in Hlen; lia|discriminate]. }
  destruct (calculateEntropy_Bits password1 Hne) as [-> H1].
  destruct (calculateEntropy_Bits password2 Hne2) as [-> H2].
  rewrite <- Hsame. cbn [exceeds]. rewrite !N.ltb_lt. intros H.
  eapply N.lt_le_trans; [exact H|].
  apply N.pow_le_mono_r; lia.
Qed.

Lemma points_mono (cond1 cond2 : bool) (k : Z) :
  (0 <= k)%Z -> (cond1 = true -> cond2 = true) ->
  (points cond1 k <= points cond2 k)%Z.
Proof.
  intros Hk H. unfold points.
  destruct cond1, cond2; first [lia | discriminate (H eq_refl)].
Qed.

(** C6: of two non-empty passwords with the same class flags and the
    same repeated and sequential flags, the one that is at least as long
    scores at least as much. *)
Theorem score_monotone_in_length (password1 password2 : str) :
  password1 <> [] -> password2 <> [] ->
  List.length password1 <= List.length password2 ->
  Analysis.hasUppercase (analyzePassword password1) =
    Analysis.hasUppercase (analyzePassword password2) ->
  Analysis.hasLowercase (analyzePassword password1) =
    Analysis.hasLowercase (analyzePassword password2) ->
  Analysis.hasNumbers (analyzePassword password1) =
    Analysis.hasNumbers (analyzePassword password2) ->
  Analysis.hasSymbols (analyzePassword password1) =
    Analysis.hasSymbols (analyzePassword password2) ->
  Analysis.hasRepeated (analyzePassword password1) =
    Analysis.hasRepeated (analyzePassword password2) ->
  Analysis.hasSequential (analyzePassword password1) =
    Analysis.hasSequential (analyzePassword password2) ->
  (Analysis.score (analyzePassword password1) <=
   Analysis.score (analyzePassword password2))%Z.
Proof.
  intros Hne1 Hne2 Hlen.
  destruct (analyzePassword_fields password1) as (_ & -> & -> & -> & -> & -> & -> & _).
  destruct (analyzePassword_fields password2) as (_ & -> & -> & -> & -> & -> & -> & _).
  intros Hu Hl Hn Hs Hr Hq.
  assert (Hsame : nominalAlphabet password1 = nominalAlphabet password2)
    by (unfold nominalAlphabet; now rewrite Hu, Hl, Hn, Hs).
  rewrite !analyzePassword_score, !calculateStrengthScore_sum.
  cbn [Analysis.length Analysis.hasUppercase Analysis.hasLowercase
       Analysis.hasNumbers Analysis.hasSymbols Analysis.hasRepeated
       Analysis.hasSequential Analysis.entropy].
  rewrite Hu, Hl, Hn, Hs, Hr, Hq.
  set (len1 := Z.of_nat (List.length password1)).
  set (len2 := Z.of_nat (List.length password2)).
  assert (Hle : (len1 <= len2)%Z) by (unfold len1, len2; lia).
  assert (H8 : (points (len1 >=? 8)%Z 25 <= points (len2 >=? 8)%Z 25)%Z)
    by (apply points_mono; [lia|rewrite !Z.geb_le; lia]).
  assert (H12 : (points (len1 >=? 12)%Z 15 <= points (len2 >=? 12)%Z 15)%Z)
    by (apply points_mono; [lia|rewrite !Z.geb_le; lia]).
  assert (H16 : (points (len1 >=? 16)%Z 10 <= points (len2 >=? 16)%Z 10)%Z)
    by (apply points_mono; [lia|rewrite !Z.geb_le; lia]).
  assert (Hshort : (points (len2 <? 8)%Z 20 <= points (len1 <? 8)%Z 20)%Z)
    by (apply points_mono; [lia|rewrite !Z.ltb_lt; lia]).
  assert (H40 : (points (exceeds (calculateEntropy password1) 40) 10 <=
                 points (exceeds (calculateEntropy password2) 40) 10)%Z)
    by (apply points_mono; [lia|now apply exceeds_entropy_mono]).
  assert (H60 : (points (exceeds (calculateEntropy password1) 60) 5 <=
                 points (exceeds (calculateEntropy password2) 60) 5)%Z)
    by (apply points_mono; [lia|now apply exceeds_entropy_mono]).
  lia.
Qed.

Lemma score_monotone_in_length_witness :
  let password1 := lit "kx7mq2w" in
  let password2 := lit "kx7mq2wvz9" in
  Analysis.score (analyzePassword password1) = 0%Z /\
  Analysis.score (analyzePassword password2) = 55%Z /\
  (Analysis.score (analyzePassword password1) <=
   Analysis.score (analyzePassword password2))%Z.
Proof.
  intros password1 password2.
  split; [reflexivity|]. split; [reflexivity|].
  apply (score_monotone_in_length password1 password2);
    solve [discriminate | reflexivity | cbn; lia].
Defined.

(** ** The strength panel *)

Lemma calculateStrengthScore_range (analysis : Analysis.t) :
  (0 <= calculateStrengthScore analysis <= 100)%Z.
Proof. rewrite calculateStrengthScore_sum. lia. Qed.

Lemma getStrengthLevel_levels (score : Z) : In (getStrengthLevel score) levels.
Proof.
  unfold getStrengthLevel, levels.
  repeat match goal with
         | |- context [if ?b then _ else _] => destruct b
         end; cbn [In]; tauto.
Qed.

(** The analysis is defined on every string: a score in [0, 100] and one
    of the six levels. *)
Lemma analyzePassword_defined (password : str) :
  (0 <= Analysis.score (analyzePassword password) <= 100)%Z /\
  In (Analysis.level (analyzePassword password)) levels.
Proof.
  split.
  - rewrite analyzePassword_score. apply calculateStrengthScore_range.
  - apply getStrengthLevel_levels.
Qed.

(** C8: the strength check is defined on every string. On the empty
    string it stops at the reset panel, with no score and no
    suggestions, where the scoring path would have written a score; on
    any other string it shows the score of the analysis, in [0, 100],
    and one of the six levels. *)
Theorem analyze_never_fails :
  (forall password panel,
     (password = [] /\
      checkPasswordStrength password panel = resetStrengthMeter panel) \/
     (password <> [] /\
      strengthScore (checkPasswordStrength password panel) =
        Some (Analysis.score (analyzePassword password)) /\
      (0 <= Analysis.score (analyzePassword password) <= 100)%Z /\
      strengthLabel (checkPasswordStrength password panel) =
        Analysis.level (analyzePassword password) /\
      In (Analysis.level (analyzePassword password)) levels /\
      suggestionsShown (checkPasswordStrength password panel) =
        Nat.ltb 0 (List.length (suggestionsOf (analyzePassword password))))) /\
  (forall panel,
     strengthScore (checkPasswordStrength [] panel) = None /\
     suggestionsShown (checkPasswordStrength [] panel) = false /\
     strengthLabel (checkPasswordStrength [] panel) =
       lit "Enter a password to check" /\
     strengthProgress (checkPasswordStrength [] panel) = 0%Z /\
     let analysis := analyzePassword [] in
     strengthScore (updateSuggestions analysis
                      (updateCriteria [] analysis
                         (updateStrengthMeter analysis panel))) = Some 0%Z).
Proof.
  split.
  - intros [|c password] panel; [left; split; reflexivity|right].
    destruct (analyzePassword_defined (c :: password)) as [Hs Hl].
    split; [discriminate|]. repeat split; assumption || reflexivity || apply Hs.
  - intros panel. repeat split.
Qed.

(** ** The extended analysis *)

Lemma findings_same_predicate {A} (table : list (bool * A)) (b b' : bool) (r : A) :
  List.NoDup (map snd table) ->
  In (b, r) table -> In (b', r) table -> b = b'.
Proof.
  induction table as [|[b0 r0] table IH]; intros Hnd Hin Hin'; [contradiction|].
  cbn [map snd] in Hnd. inversion Hnd as [|? ? Hr0 Hnd']; subst.
  destruct Hin as [Hin|Hin], Hin' as [Hin'|Hin'].
  - congruence.
  - injection Hin as <- <-. exfalso. apply Hr0.
    change r0 with (snd (b', r0)). now apply in_map.
  - injection Hin' as <- <-. exfalso. apply Hr0.
    change r0 with (snd (b, r0)). now apply in_map.
  - now apply IH.
Qed.

(** In a table of distinct findings, a finding is kept by the filter
    exactly when its predicate holds. *)
Lemma findings_kept {A} (table : list (bool * A)) (b : bool) (r : A) :
  List.NoDup (map snd table) ->
  In (b, r) table ->
  (In r (map snd (List.filter fst table)) <-> b = true).
Proof.
  intros Hnd Hin. split.
  - intros H. apply in_map_iff in H. destruct H as ([b' r'] & Heq & H).
    cbn [snd] in Heq. subst r'.
    apply filter_In in H. destruct H as [H Hb']. cbn [fst] in Hb'. subst b'.
    exact (findings_same_predicate table b true r Hnd Hin H).
  - intros ->. change r with (snd (true, r)). apply in_map.
    apply filter_In. now split.
Qed.

Lemma findings_distinct (password : str) :
  List.NoDup (map snd (findings password)).
Proof.
  unfold findings. cbn [map snd].
  repeat (apply List.NoDup_cons;
          [cbn [In]; intros H;
           repeat (destruct H as [H|H]; [discriminate H|]); exact H|]).
  apply List.NoDup_nil.
Qed.

(** C9: the recommendations of the extended analysis are the findings
    whose predicate holds, in the fixed order common, leaked, keyboard,
    dictionary, personal, repeated, low entropy, with the tags critical
    (common, leaked), warning (keyboard, dictionary, personal) and info
    (repeated, entropy below 50 bits); a finding is recommended exactly
    when its predicate holds. *)
Theorem recommendations_in_order (password : str) :
  recommendations (performAdvancedAnalysis password) =
    map snd (List.filter fst (findings password)) /\
  forall finding,
    In finding (findings password) ->
    (In (snd finding) (recommendations (performAdvancedAnalysis password)) <->
     fst finding = true).
Proof.
  assert (Heq : recommendations (performAdvancedAnalysis password) =
                map snd (List.filter fst (findings password))).
  { unfold performAdvancedAnalysis, getAdvancedRecommendations, findings.
    cbn [recommendations AdvancedAnalyzer.analyzePattern AdvancedAnalyzer.keyboard
         AdvancedAnalyzer.dictionary AdvancedAnalyzer.personal
         AdvancedAnalyzer.repeated].
    destruct (analyzePassword_fields password) as (_ & _ & _ & _ & _ & _ & _ & ->).
    destruct (PasswordTester.isCommonPassword password),
      (PasswordTester.checkAgainstLeaks password),
      (AdvancedAnalyzer.isKeyboardPattern password),
      (AdvancedAnalyzer.isDictionaryWord password),
      (AdvancedAnalyzer.mightBePersonalInfo password),
      (AdvancedAnalyzer.hasRepeatedSubstring password),
      (below (calculateEntropy password) 50); reflexivity. }
  split; [exact Heq|].
  intros [b r] Hin. rewrite Heq. cbn [fst snd].
  apply findings_kept; [apply findings_distinct|exact Hin].
Qed.

(** * Further properties of the script *)

(** ** Substrings *)

Lemma bool_eq_iff (a b : bool) : (a = true <-> b = true) -> a = b.
Proof. destruct a, b; intros [H1 H2]; try reflexivity; [symmetry|]; auto. Qed.

Lemma startsWith_spec (s prefix : str) :
  startsWith s prefix = true <-> exists post, s = prefix ++ post.
Proof.
  revert s. induction prefix as [|p prefix IH]; intros s.
  - split; [intros _; now exists s|intros _; now destruct s].
  - destruct s as [|c s]; cbn [startsWith].
    + split; [discriminate|]. intros [post H]. discriminate.
    + rewrite andb_true_iff, Ascii.eqb_eq, IH. split.
      * intros [-> [post ->]]. now exists post.
      * intros [post H]. injection H as -> ->. split; [reflexivity|now exists post].
Qed.

(** [s.includes(sub)] says that [sub] is a block of [s]. *)
Lemma includes_spec (s sub : str) :
  includes s sub = true <-> exists pre post, s = pre ++ sub ++ post.
Proof.
  induction s as [|c s IH]; cbn [includes]; rewrite orb_true_iff, startsWith_spec.
  - split.
    + intros [[post H]|H]; [|discriminate]. exists [], post. exact H.
    + intros (pre & post & H). left.
      destruct pre; [now exists post|discriminate].
  - rewrite IH. split.
    + intros [[post H]|(pre & post & H)].
      * exists [], post. exact H.
      * exists (c :: pre), post. cbn [app]. now rewrite H.
    + intros (pre & post & H). destruct pre as [|c' pre].
      * left. now exists post.
      * right. injection H as -> ->. now exists pre, post.
Qed.

Lemma includes_rev (s sub : str) : includes (rev s) (rev sub) = includes s sub.
Proof.
  apply bool_eq_iff. rewrite !includes_spec. split.
  - intros (pre & post & H). exists (rev post), (rev pre).
    apply (f_equal (@rev ascii)) in H.
    rewrite rev_involutive, !rev_app_distr, rev_involutive in H.
    now rewrite H, app_assoc.
  - intros (pre & post & ->). exists (rev post), (rev pre).
    now rewrite !rev_app_distr, app_assoc.
Qed.

(** ** The history *)

Lemma strEq_eq (a b : str) : strEq a b = true <-> a = b.
Proof.
  revert b. induction a as [|x a IH]; intros [|y b]; cbn [strEq];
    try (split; [discriminate|discriminate]); [tauto|].
  rewrite andb_true_iff, Ascii.eqb_eq, IH. split.
  - now intros [-> ->].
  - intros H. injection H as -> ->. tauto.
Qed.

Lemma history_includes (password : str) (history : list str) :
  existsb (strEq password) history = true <-> In password history.
Proof.
  rewrite existsb_exists. split.
  - intros (x & Hx & Heq). apply strEq_eq in Heq. now subst.
  - intros H. exists password. split; [exact H|now apply strEq_eq].
Qed.

Lemma historyOk_sublist (history history' : list str) :
  sublist history' history -> historyOk history -> historyOk history'.
Proof.
  intros Hsub [Hlen Hnd]. split.
  - apply sublist_length in Hsub. lia.
  - exact (sublist_NoDup _ _ Hnd Hsub).
Qed.

Lemma addToHistory_history (password : str) (page : Page) :
  passwordHistory (addToHistory password page) =
    if existsb (strEq password) (passwordHistory page)
    then passwordHistory page
    else password :: take 9 (passwordHistory page).
Proof.
  unfold addToHistory.
  destruct (existsb (strEq password) (passwordHistory page)); [reflexivity|].
  cbn [passwordHistory].
  destruct (Nat.ltb_spec 10 (List.length (password :: passwordHistory page)))
    as [H|H]; [reflexivity|].
  cbn [List.length] in H. rewrite take_ge by lia. reflexivity.
Qed.

Lemma addToHistory_historyOk (password : str) (page : Page) :
  historyOk (passwordHistory page) ->
  historyOk (passwordHistory (addToHistory password page)) /\
  In password (passwordHistory (addToHistory password page)).
Proof.
  intros [Hlen Hnd]. rewrite addToHistory_history.
  destruct (existsb (strEq password) (passwordHistory page)) eqn:E.
  - apply history_includes in E. repeat split; assumption.
  - assert (Hnin : ~ In password (passwordHistory page)).
    { intros H. apply history_includes in H. congruence. }
    split; [split|now left].
    + cbn [List.length]. rewrite length_take. lia.
    + apply NoDup_cons. split.
      * intros H. apply Hnin. apply list_elem_of_In.
        exact (subseteq_take 9 _ _ H).
      * exact (sublist_NoDup _ _ Hnd (sublist_take _ 9)).
Qed.

(** X1: [addToHistory] keeps the history to at most ten distinct
    passwords and leaves the password in it: in front when it is new,
    where it was when it is known. *)
Theorem addToHistory_invariant (password : str) (page : Page) :
  historyOk (passwordHistory page) ->
  historyOk (passwordHistory (addToHistory password page)) /\
  In password (passwordHistory (addToHistory password page)) /\
  (In password (passwordHistory page) -> addToHistory password page = page) /\
  (~ In password (passwordHistory page) ->
   passwordHistory (addToHistory password page) =
     password :: take 9 (passwordHistory page)).
Proof.
  intros Hok.
  destruct (addToHistory_historyOk password page Hok) as [Hok' Hin].
  split; [exact Hok'|]. split; [exact Hin|]. split.
  - intros H. apply history_includes in H. unfold addToHistory. now rewrite H.
  - intros H. rewrite addToHistory_history.
    destruct (existsb (strEq password) (passwordHistory page)) eqn:E;
      [|reflexivity].
    apply history_includes in E. contradiction.
Qed.

Lemma addToHistory_invariant_witness :
  let page := blankPage [lit "abc"; lit "Xy9!"] in
  historyOk (passwordHistory page) /\
  passwordHistory (addToHistory (lit "new1") page) =
    [lit "new1"; lit "abc"; lit "Xy9!"] /\
  historyOk (passwordHistory (addToHistory (lit "new1") page)).
Proof.
  intros page.
  assert (Hok : historyOk (passwordHistory page)).
  { split; [cbn; lia|]. cbn [passwordHistory page blankPage].
    repeat (apply NoDup_cons; split;
            [rewrite list_elem_of_In; cbn [In]; intros H;
             repeat (destruct H as [H|H]; [discriminate H|]); exact H|]).
    apply NoDup_nil_2. }
  split; [exact Hok|]. split; [reflexivity|].
  apply (addToHistory_invariant (lit "new1") page Hok).
Defined.

(** X2: adding the same password twice is adding it once. *)
Theorem addToHistory_idempotent (password : str) (page : Page) :
  addToHistory password (addToHistory password page) =
  addToHistory password page.
Proof.
  assert (Hin : In password (passwordHistory (addToHistory password page))).
  { unfold addToHistory.
    destruct (existsb (strEq password) (passwordHistory page)) eqn:E.
    - now apply history_includes.
    - cbn [passwordHistory].
      destruct (Nat.ltb 10 (List.length (password :: passwordHistory page)));
        now left. }
  apply history_includes in Hin.
  unfold addToHistory at 1. now rewrite Hin.
Qed.

(** X3: [removeFromHistory] removes the entry at an index inside the
    history and nothing else; an index at or past the end removes
    nothing, a negative index counts from the end. The history stays
    bounded and free of duplicates. *)
Theorem removeFromHistory_index (index : Z) (page : Page) :
  let history := passwordHistory page in
  let len := Z.of_nat (List.length history) in
  ((0 <= index < len)%Z ->
   passwordHistory (removeFromHistory index page) =
     take (Z.to_nat index) history ++ drop (S (Z.to_nat index)) history /\
   S (List.length (passwordHistory (removeFromHistory index page))) =
     List.length history) /\
  ((len <= index)%Z ->
   passwordHistory (removeFromHistory index page) = history) /\
  ((- len <= index < 0)%Z ->
   passwordHistory (removeFromHistory index page) =
     passwordHistory (removeFromHistory (len + index) page)) /\
  (historyOk history ->
   historyOk (passwordHistory (removeFromHistory index page))) /\
  generatedPassword (removeFromHistory index page) = generatedPassword page.
Proof.
  intros history len. unfold removeFromHistory.
  cbn [showToast passwordHistory generatedPassword]. fold history.
  unfold splice1. fold len.
  split; [intros Hin; split|split; [|split; [|split; [|reflexivity]]]].
  - destruct (Z.ltb_spec index 0) as [Hn|Hn]; [lia|].
    rewrite Z.min_l by lia. apply delete_take_drop.
  - destruct (Z.ltb_spec index 0) as [Hn|Hn]; [lia|].
    rewrite Z.min_l by lia.
    pose proof (length_delete history (Z.to_nat index)) as Hd.
    destruct (lookup_lt_is_Some_2 history (Z.to_nat index)) as [x Hx];
      [unfold len in *; lia|].
    specialize (Hd (ex_intro _ x Hx)).
    unfold len in *. destruct history; [cbn in *; lia|].
    cbn [List.length] in *. lia.
  - intros Hge. destruct (Z.ltb_spec index 0) as [Hn|Hn]; [unfold len in *; lia|].
    rewrite Z.min_r by lia. rewrite delete_take_drop.
    unfold len. rewrite Nat2Z.id.
    rewrite take_ge, drop_ge by lia. apply app_nil_r.
  - intros Hneg. destruct (Z.ltb_spec index 0) as [Hn|Hn]; [|lia].
    destruct (Z.ltb_spec (len + index) 0) as [Hn'|Hn']; [lia|].
    rewrite Z.max_l, Z.min_l by lia. reflexivity.
  - intros Hok. eapply historyOk_sublist; [|exact Hok]. apply sublist_delete.
Qed.

Lemma removeFromHistory_index_witness :
  let page := blankPage [lit "one"; lit "two"; lit "three"] in
  passwordHistory (removeFromHistory 1 page) = [lit "one"; lit "three"] /\
  passwordHistory (removeFromHistory 3 page) = [lit "one"; lit "two"; lit "three"] /\
  passwordHistory (removeFromHistory (-1) page) = [lit "one"; lit "two"].
Proof.
  intros page.
  destruct (removeFromHistory_index 1 page) as (H1 & _).
  destruct (removeFromHistory_index 3 page) as (_ & H3 & _).
  split; [exact (proj1 (H1 ltac:(cbn; lia)))|].
  split; [exact (H3 ltac:(cbn; lia))|reflexivity].
Defined.

(** X4: [clearPasswordHistory] empties the history only when it is not
    empty and the user confirms; a refusal changes nothing at all, and an
    empty history only gets the notice that it is empty. *)
Theorem clearPasswordHistory_cases (confirmed : bool) (page : Page) :
  (passwordHistory (clearPasswordHistory confirmed page) = [] <->
   passwordHistory page = [] \/ confirmed = true) /\
  (passwordHistory page <> [] -> confirmed = false ->
   clearPasswordHistory confirmed page = page) /\
  (passwordHistory page = [] ->
   clearPasswordHistory confirmed page =
     showToast (lit "History is already empty") info page) /\
  generatedPassword (clearPasswordHistory confirmed page) =
    generatedPassword page /\
  panel (clearPasswordHistory confirmed page) = panel page.
Proof.
  unfold clearPasswordHistory.
  destruct (passwordHistory page) as [|p history] eqn:E, confirmed;
    cbn [showToast passwordHistory generatedPassword panel];
    rewrite ?E;
    (split; [split; [intros H|intros [H|H]]
            |split; [intros H1 H2|split; [intros H|split]]]);
    auto; try discriminate; try congruence.
Qed.

(** X5: the text shown for a history entry has at most 33 characters
    and starts like the password; it is the password itself up to 30
    characters, and 30 characters and three dots beyond. *)
Theorem truncatePassword_bound (password : str) :
  List.length (truncatePassword password) <= 33 /\
  take 30 (truncatePassword password) = take 30 password /\
  (List.length password <= 30 -> truncatePassword password = password) /\
  (30 < List.length password ->
   truncatePassword password = take 30 password ++ lit "..." /\
   List.length (truncatePassword password) = 33).
Proof.
  unfold truncatePassword, substring.
  destruct (Nat.ltb_spec 30 (List.length password)) as [H|H].
  - rewrite drop_0, Nat.sub_0_r.
    assert (Hlen : List.length (take 30 password ++ lit "...") = 33).
    { rewrite length_app, length_take.
      change (List.length (lit "...")) with 3. lia. }
    split; [lia|]. split; [|split].
    + rewrite take_app_le by (rewrite length_take; lia).
      rewrite take_take. reflexivity.
    + intros Hle. exfalso. lia.
    + intros _. split; [reflexivity|exact Hlen].
  - split; [lia|]. split; [reflexivity|]. split; [reflexivity|].
    intros Hgt. exfalso. lia.
Qed.

Lemma truncatePassword_bound_witness :
  let password := lit "abcdefghijklmnopqrstuvwxyz0123456789" in
  truncatePassword password = lit "abcdefghijklmnopqrstuvwxyz0123..." /\
  List.length (truncatePassword password) = 33.
Proof.
  intros password. split; [reflexivity|].
  apply (truncatePassword_bound password). cbn. lia.
Defined.

(** ** The random numbers consumed *)

Lemma drawsExactly_ret {A} (a : A) : drawsExactly (ret a) 0.
Proof. intros s k. reflexivity. Qed.

Lemma drawsExactly_getRandomValues : drawsExactly getRandomValues 1.
Proof. intros s k. reflexivity. Qed.

Lemma drawsExactly_bind {A B} (m : Rand A) (f : A -> Rand B) (P : A -> Prop)
    (n n' : nat) :
  always m P -> drawsExactly m n ->
  (forall a, P a -> drawsExactly (f a) n') ->
  drawsExactly (bind m f) (n + n').
Proof.
  intros HP Hm Hf s k. unfold bind.
  specialize (HP s). specialize (Hm s). unfold run in HP.
  destruct (m s) as [a s']. cbn [fst snd] in *.
  rewrite (Hf a HP s' k), Hm. f_equal. lia.
Qed.

Lemma drawsExactly_getRandomChar (charset : str) :
  drawsExactly (getRandomChar charset) 1.
Proof.
  unfold getRandomChar.
  apply (drawsExactly_bind _ _ (fun _ => True) 1 0);
    [apply always_True|apply drawsExactly_getRandomValues|].
  intros r _. apply drawsExactly_ret.
Qed.

Lemma drawsExactly_shuffleLoop {A} (i : nat) (array : list A) :
  drawsExactly (shuffleLoop i array) i.
Proof.
  revert array. induction i as [|i IH]; intros array; cbn [shuffleLoop].
  - apply drawsExactly_ret.
  - apply (drawsExactly_bind _ _ (fun _ => True) 1 i);
      [apply always_True|apply drawsExactly_getRandomValues|].
    intros r _. apply IH.
Qed.

Lemma drawsExactly_pushRandomChars (n : nat) (charset : str)
    (randomChars : list (option ascii)) :
  drawsExactly (pushRandomChars n charset randomChars) n.
Proof.
  revert randomChars. induction n as [|n IH]; intros randomChars;
    cbn [pushRandomChars].
  - apply drawsExactly_ret.
  - apply (drawsExactly_bind _ _ (fun _ => True) 1 n);
      [apply always_True|apply drawsExactly_getRandomChar|].
    intros c _. apply IH.
Qed.

Lemma pushRandomChars_length (n : nat) (charset : str)
    (randomChars : list (option ascii)) :
  always (pushRandomChars n charset randomChars)
    (fun result => List.length result = List.length randomChars + n).
Proof.
  revert randomChars. induction n as [|n IH]; intros randomChars;
    cbn [pushRandomChars].
  - apply always_ret. lia.
  - eapply always_bind; [apply always_True|].
    intros c _. eapply always_weaken; [apply IH|].
    intros result H. cbn beta in H. rewrite H, length_app. cbn [List.length]. lia.
Qed.

Lemma drawsExactly_addClass (include exclude : bool) (chars toRemove : str)
    (acc : str * list (option ascii)) :
  drawsExactly (addClass include exclude chars toRemove acc) (Nat.b2n include).
Proof.
  unfold addClass. destruct acc as [charset guaranteedChars], include.
  - apply (drawsExactly_bind _ _ (fun _ => True) 1 0);
      [apply always_True|apply drawsExactly_getRandomChar|].
    intros c _. apply drawsExactly_ret.
  - apply drawsExactly_ret.
Qed.

Lemma addClass_length (include exclude : bool) (chars toRemove : str)
    (acc : str * list (option ascii)) :
  always (addClass include exclude chars toRemove acc)
    (fun acc' => List.length (snd acc') = List.length (snd acc) + Nat.b2n include).
Proof.
  unfold addClass. destruct acc as [charset guaranteedChars], include.
  - eapply always_bind; [apply always_True|].
    intros c _. apply always_ret. cbn [snd]. rewrite length_app. reflexivity.
  - apply always_ret. cbn. lia.
Qed.

Lemma numSelectedClasses_b2n (options : Options.t) :
  numSelectedClasses options =
  Z.of_nat (Nat.b2n (Options.includeUppercase options) +
            Nat.b2n (Options.includeLowercase options) +
            Nat.b2n (Options.includeNumbers options) +
            Nat.b2n (Options.includeSymbols options)).
Proof.
  unfold numSelectedClasses.
  destruct (Options.includeUppercase options), (Options.includeLowercase options),
    (Options.includeNumbers options), (Options.includeSymbols options); reflexivity.
Qed.

(** The two arrays of [createPassword] take one number for each of
    their entries, and together have [passwordLength] entries; this
    needs no valid options. *)
Lemma drawChars_draws (options : Options.t) :
  drawsExactly (drawChars options) (passwordLength options) /\
  always (drawChars options) (fun chars =>
    List.length (fst chars ++ snd chars) = passwordLength options).
Proof.
  pose proof (numSelectedClasses_b2n options) as Hnum.
  set (u := Nat.b2n (Options.includeUppercase options)) in *.
  set (l := Nat.b2n (Options.includeLowercase options)) in *.
  set (n := Nat.b2n (Options.includeNumbers options)) in *.
  set (y := Nat.b2n (Options.includeSymbols options)) in *.
  set (rest := Z.to_nat (Options.length options - numSelectedClasses options)).
  assert (Hlen : passwordLength options = u + (l + (n + (y + (rest + 0))))).
  { unfold passwordLength, rest. lia. }
  rewrite Hlen. unfold drawChars. split.
  - eapply drawsExactly_bind;
      [apply (addClass_length _ _ _ _ ([], []))|apply drawsExactly_addClass|].
    intros [c1 g1] H1. cbn [snd List.length] in H1.
    eapply drawsExactly_bind;
      [apply (addClass_length _ _ _ _ (c1, g1))|apply drawsExactly_addClass|].
    intros [c2 g2] H2. cbn [snd] in H2.
    eapply drawsExactly_bind;
      [apply (addClass_length _ _ _ _ (c2, g2))|apply drawsExactly_addClass|].
    intros [c3 g3] H3. cbn [snd] in H3.
    eapply drawsExactly_bind;
      [apply (addClass_length _ _ _ _ (c3, g3))|apply drawsExactly_addClass|].
    intros [c4 g4] H4. cbn [snd] in H4.
    replace (Z.to_nat (Options.length options - Z.of_nat (List.length g4)))
      with rest by (unfold rest; f_equal; fold u l n y in H1, H2, H3, H4; lia).
    eapply drawsExactly_bind;
      [apply always_True|apply drawsExactly_pushRandomChars|].
    intros r _. apply drawsExactly_ret.
  - eapply always_bind; [apply (addClass_length _ _ _ _ ([], []))|].
    intros [c1 g1] H1. cbn [snd List.length] in H1.
    eapply always_bind; [apply (addClass_length _ _ _ _ (c1, g1))|].
    intros [c2 g2] H2. cbn [snd] in H2.
    eapply always_bind; [apply (addClass_length _ _ _ _ (c2, g2))|].
    intros [c3 g3] H3. cbn [snd] in H3.
    eapply always_bind; [apply (addClass_length _ _ _ _ (c3, g3))|].
    intros [c4 g4] H4. cbn [snd] in H4.
    replace (Z.to_nat (Options.length options - Z.of_nat (List.length g4)))
      with rest by (unfold rest; f_equal; fold u l n y in H1, H2, H3, H4; lia).
    eapply always_bind.
    { apply (pushRandomChars_length rest c4 []). }
    intros r Hr. apply always_ret. cbn [fst snd].
    rewrite length_app, Hr. fold u l n y in H1, H2, H3, H4. cbn [List.length]. lia.
Qed.

(** X6: [shuffleArray] takes exactly one random number for each position
    but the first, none for an array of at most one entry; the stream it
    leaves starts right after them. *)
Theorem shuffleArray_draws {A} (array : list A) :
  drawsExactly (shuffleArray array) (List.length array - 1).
Proof. apply drawsExactly_shuffleLoop. Qed.

(** X7: [createPassword] takes exactly [2n - 1] random numbers for a
    password of [n >= 1] characters (one for each character and [n - 1]
    for the shuffle), whatever their values, and none for [n = 0]; with
    a class selected [n] is the length of the password and at least 1. *)
Theorem createPassword_draws (options : Options.t) :
  drawsExactly (createPassword options)
    (passwordLength options + (passwordLength options - 1)) /\
  (validateOptions options = true ->
   forall rnd,
     List.length (run (createPassword options) rnd) = passwordLength options /\
     1 <= passwordLength options).
Proof.
  split.
  - destruct (drawChars_draws options) as [Hd Hl]. unfold createPassword.
    eapply drawsExactly_bind; [exact Hl|exact Hd|].
    intros [g r] Hlen. cbn [fst snd] in Hlen.
    replace (passwordLength options - 1) with (List.length (g ++ r) - 1 + 0)
      by (rewrite Hlen; lia).
    eapply drawsExactly_bind;
      [apply always_True|apply drawsExactly_shuffleLoop|].
    intros shuffled _. apply drawsExactly_ret.
  - intros Hvalid rnd.
    destruct (createPassword_chars options rnd Hvalid) as (Hlen & _).
    assert (Hn : (1 <= numSelectedClasses options)%Z).
    { unfold validateOptions in Hvalid. unfold numSelectedClasses.
      destruct (Options.includeUppercase options),
        (Options.includeLowercase options), (Options.includeNumbers options),
        (Options.includeSymbols options); cbn in *; try lia; discriminate. }
    unfold passwordLength. lia.
Qed.

Lemma createPassword_draws_witness :
  let options := {| Options.length := 5;
                    Options.includeUppercase := true;
                    Options.includeLowercase := true;
                    Options.includeNumbers := false;
                    Options.includeSymbols := false;
                    Options.excludeSimilar := false;
                    Options.excludeAmbiguous := false |} in
  let rnd : Source := fun k => (3 * N.of_nat k + 1)%N in
  validateOptions options = true /\
  List.length (run (createPassword options) rnd) = 5 /\
  snd (createPassword options rnd) 0 = rnd 9.
Proof.
  intros options rnd. split; [reflexivity|].
  destruct (createPassword_draws options) as [Hd Hl].
  split; [exact (proj1 (Hl eq_refl rnd))|].
  exact (Hd rnd 0).
Defined.

(** ** Generation on the page *)

Lemma createPassword_nonempty (options : Options.t) (rnd : Source) :
  validateOptions options = true -> run (createPassword options) rnd <> [].
Proof.
  intros Hvalid Hnil.
  destruct (createPassword_chars options rnd Hvalid) as (Hlen & _).
  rewrite Hnil in Hlen. cbn [List.length] in Hlen.
  assert (1 <= numSelectedClasses options)%Z; [|lia].
  unfold validateOptions in Hvalid. unfold numSelectedClasses.
  destruct (Options.includeUppercase options), (Options.includeLowercase options),
    (Options.includeNumbers options), (Options.includeSymbols options);
    cbn in *; try lia; discriminate.
Qed.

Lemma addToHistory_fields (password : str) (page : Page) :
  panel (addToHistory password page) = panel page /\
  toast (addToHistory password page) = toast page.
Proof. unfold addToHistory. now destruct (existsb _ _). Qed.

(** X8: with a character class selected, [generatePassword] shows the
    new password, has it in a history that stays bounded and free of
    duplicates, reports success, and shows the score and the level of
    that password on the strength panel, never the reset panel. *)
Theorem generatePassword_page (options : Options.t) (page : Page) (rnd : Source) :
  validateOptions options = true ->
  historyOk (passwordHistory page) ->
  let password := run (createPassword options) rnd in
  let page' := run (generatePassword options page) rnd in
  generatedPassword page' = password /\
  passwordHistory page' = passwordHistory (addToHistory password page) /\
  In password (passwordHistory page') /\
  historyOk (passwordHistory page') /\
  panel page' = checkPasswordStrength password (panel page) /\
  strengthScore (panel page') = Some (Analysis.score (analyzePassword password)) /\
  strengthLabel (panel page') = Analysis.level (analyzePassword password) /\
  toast page' = Some (lit "Password generated successfully!", success).
Proof.
  intros Hvalid Hok password page'.
  pose proof (createPassword_nonempty options rnd Hvalid) as Hne.
  fold password in Hne.
  assert (Hpage : page' =
    showToast (lit "Password generated successfully!") success
      {| generatedPassword := password;
         passwordHistory := passwordHistory (addToHistory password page);
         toast := toast page;
         panel := checkPasswordStrength password (panel page) |}).
  { unfold page', password, generatePassword, run, bind. rewrite Hvalid.
    cbn [negb]. destruct (createPassword options rnd) as [pw s'].
    cbn [fst ret showToast generatedPassword passwordHistory toast panel].
    f_equal; unfold addToHistory; destruct (existsb _ _); reflexivity. }
  rewrite Hpage. cbn [showToast generatedPassword passwordHistory toast panel].
  destruct (addToHistory_historyOk password page Hok) as (Hok' & Hin).
  repeat split; try assumption; try apply Hok';
    destruct password; solve [congruence | reflexivity].
Qed.

Lemma generatePassword_page_witness :
  let options := {| Options.length := 8;
                    Options.includeUppercase := true;
                    Options.includeLowercase := true;
                    Options.includeNumbers := false;
                    Options.includeSymbols := false;
                    Options.excludeSimilar := false;
                    Options.excludeAmbiguous := false |} in
  let rnd : Source := fun k => (31 * N.of_nat k + 5)%N in
  let page' := run (generatePassword options (blankPage [])) rnd in
  validateOptions options = true /\
  historyOk (passwordHistory (blankPage [])) /\
  passwordHistory page' = [generatedPassword page'] /\
  strengthScore (panel page') =
    Some (Analysis.score (analyzePassword (generatedPassword page'))).
Proof.
  intros options rnd page'.
  assert (Hok : historyOk (passwordHistory (blankPage []))).
  { split; [cbn; lia|apply NoDup_nil_2]. }
  split; [reflexivity|]. split; [exact Hok|]. split; [reflexivity|].
  destruct (generatePassword_page options (blankPage []) rnd eq_refl Hok)
    as (Hg & _ & _ & _ & _ & Hs & _).
  unfold page'. rewrite Hs, Hg. reflexivity.
Defined.

Lemma pushPasswords_spec (n : nat) (options : Options.t) (passwords : list str)
    (P : str -> Prop) :
  always (createPassword options) P ->
  always (pushPasswords n options passwords)
    (fun result => exists pushed, result = passwords ++ pushed /\
       List.length pushed = n /\ Forall P pushed).
Proof.
  intros HP. revert passwords.
  induction n as [|n IH]; intros passwords; cbn [pushPasswords].
  - apply always_ret. exists []. rewrite app_nil_r. repeat split. constructor.
  - eapply always_bind; [exact HP|].
    intros password Hpw. eapply always_weaken; [apply IH|].
    intros result (pushed & -> & Hlen & Hall). cbn beta.
    exists (password :: pushed). rewrite <- app_assoc.
    repeat split; [cbn [List.length]; now rewrite Hlen|now constructor].
Qed.

(** X9: with a character class selected and a length of at least the
    number of selected classes, [generateMultiplePasswords(count)] hands
    exactly [count] passwords to the modal, each of the requested length
    and with a character of each selected class; it changes nothing on
    the page, history included. Without a class it shows the error and
    no modal. *)
Theorem generateMultiplePasswords_batch (count : Z) (options : Options.t)
    (page : Page) (rnd : Source) :
  (validateOptions options = true ->
   (numSelectedClasses options <= Options.length options)%Z ->
   exists passwords,
     run (generateMultiplePasswords count options page) rnd =
       (page, Some passwords) /\
     Z.of_nat (List.length passwords) = Z.max 0 count /\
     Forall (fun password =>
       Z.of_nat (List.length password) = Options.length options /\
       Forall (fun class => exists c, In c class /\ In c password)
              (selectedClasses options)) passwords) /\
  (validateOptions options = false ->
   run (generateMultiplePasswords count options page) rnd =
     (showToast (lit "Please select at least one character type!") error page,
      None)).
Proof.
  split; intros Hvalid; unfold generateMultiplePasswords; rewrite Hvalid; cbn [negb];
    [intros Hlen|reflexivity].
  set (P := fun password : str =>
    Z.of_nat (List.length password) = Options.length options /\
    Forall (fun class => exists c, In c class /\ In c password)
           (selectedClasses options)).
  assert (HP : always (createPassword options) P).
  { intros s. destruct (createPassword_chars options s Hvalid) as (H1 & _ & H3).
    split; [lia|exact H3]. }
  pose proof (pushPasswords_spec (Z.to_nat count) options [] P HP rnd) as H.
  unfold run, bind in *.
  destruct (pushPasswords (Z.to_nat count) options [] rnd) as [passwords s'].
  cbn [fst] in *. destruct H as (pushed & -> & Hn & Hall).
  exists pushed. cbn [app ret fst]. repeat split; [lia|exact Hall].
Qed.

Lemma generateMultiplePasswords_batch_witness :
  let options := {| Options.length := 6;
                    Options.includeUppercase := false;
                    Options.includeLowercase := true;
                    Options.includeNumbers := true;
                    Options.includeSymbols := false;
                    Options.excludeSimilar := false;
                    Options.excludeAmbiguous := false |} in
  let rnd : Source := fun k => (17 * N.of_nat k + 2)%N in
  validateOptions options = true /\
  (numSelectedClasses options <= Options.length options)%Z /\
  exists passwords,
    run (generateMultiplePasswords 5 options (blankPage [])) rnd =
      (blankPage [], Some passwords) /\
    List.length passwords = 5.
Proof.
  intros options rnd.
  split; [reflexivity|]. split; [vm_compute; discriminate|].
  destruct (generateMultiplePasswords_batch 5 options (blankPage []) rnd) as [H _].
  destruct (H eq_refl ltac:(vm_compute; discriminate)) as (passwords & Hrun & Hn & _).
  exists passwords. split; [exact Hrun|]. change (Z.max 0 5) with 5%Z in Hn. lia.
Defined.

(** ** Features of the analyzer *)

Lemma not_NoDup_positions (l : str) :
  ~ NoDup l <->
  exists i j c, i <> j /\ l !! i = Some c /\ l !! j = Some c.
Proof.
  split.
  - induction l as [|x l IH]; intros Hn.
    + exfalso. apply Hn. apply NoDup_nil_2.
    + destruct (decide (x ∈ l)) as [Hin|Hnin].
      * apply list_elem_of_lookup_1 in Hin. destruct Hin as [k Hk].
        exists 0, (S k), x. repeat split; [discriminate|exact Hk].
      * destruct IH as (i & j & c & Hij & Hi & Hj).
        { intros Hnd. apply Hn. now apply NoDup_cons. }
        exists (S i), (S j), c. repeat split; [congruence|exact Hi|exact Hj].
  - intros (i & j & c & Hij & Hi & Hj) Hnd.
    apply Hij. exact (proj1 (NoDup_alt l) Hnd i j c Hi Hj).
Qed.

(** X10: [hasRepeatedChars] holds exactly when one character stands at
    two different positions of the password. *)
Theorem hasRepeatedChars_positions (password : str) :
  hasRepeatedChars password = true <->
  exists i j c, i <> j /\ password !! i = Some c /\ password !! j = Some c.
Proof.
  rewrite hasRepeatedChars_NoDup. apply not_NoDup_positions.
Qed.

Lemma half_bounds (n len : nat) : len <= n / 2 <-> len * 2 <= n.
Proof.
  split; intros H.
  - pose proof (Nat.Div0.mul_div_le n 2). lia.
  - apply Nat.div_le_lower_bound; lia.
Qed.

(** X11: [hasRepeatedSubstring] holds exactly when a block of at least
    two characters occurs a second time after its first occurrence,
    without overlap. *)
Theorem hasRepeatedSubstring_blocks (password : str) :
  AdvancedAnalyzer.hasRepeatedSubstring password = true <->
  exists before block between after,
    2 <= List.length block /\
    password = before ++ block ++ between ++ block ++ after.
Proof.
  unfold AdvancedAnalyzer.hasRepeatedSubstring, substring.
  set (n := List.length password).
  rewrite existsb_exists. split.
  - intros (len & Hlen & H). apply existsb_exists in H.
    destruct H as (i & Hi & H).
    apply in_seq in Hlen. apply in_seq in Hi.
    assert (Hhalf : len <= n / 2) by lia. apply half_bounds in Hhalf.
    apply includes_spec in H. destruct H as (between & after & Hrest).
    replace (i + len - i) with len in Hrest by lia.
    exists (take i password), (take len (drop i password)), between, after.
    split.
    + rewrite length_take, length_drop. fold n. lia.
    + rewrite <- Hrest.
      replace (i + len) with (i + len)%nat by reflexivity.
      rewrite <- drop_drop, !take_drop. reflexivity.
  - intros (before & block & between & after & Hlen & Hp).
    assert (Hn : n = List.length before + (List.length block +
                  (List.length between + (List.length block + List.length after)))).
    { unfold n. rewrite Hp, !length_app. reflexivity. }
    exists (List.length block). split.
    + apply in_seq.
      assert (List.length block <= n / 2) by (apply half_bounds; lia). lia.
    + apply existsb_exists. exists (List.length before). split.
      * apply in_seq. lia.
      * apply includes_spec. exists between, after.
        replace (List.length before + List.length block - List.length before)
          with (List.length block) by lia.
        rewrite Hp.
        rewrite drop_app_add, !drop_app_length, take_app_length.
        reflexivity.
Qed.

Lemma existsb_rev {A} (f : A -> bool) (l : list A) :
  existsb f (rev l) = existsb f l.
Proof.
  apply bool_eq_iff. rewrite !existsb_exists.
  split; intros (x & Hx & Hf); exists x; (split; [|exact Hf]);
    [now apply in_rev|now apply in_rev in Hx].
Qed.

Lemma existsb_same {A} (f g : A -> bool) (l : list A) :
  (forall x, f x = g x) -> existsb f l = existsb g l.
Proof.
  intros H. induction l as [|x l IH]; cbn [existsb]; [reflexivity|].
  now rewrite H, IH.
Qed.

Lemma hasSequentialChars_rev (password : str) :
  hasSequentialChars (rev password) = hasSequentialChars password.
Proof.
  unfold hasSequentialChars, toLowerCase. rewrite map_rev.
  apply existsb_same. intros sequence. apply existsb_same. intros i.
  set (lower := map toLowerCaseChar password).
  set (subseq := substring sequence i (i + 3)).
  rewrite (includes_rev lower subseq).
  rewrite <- (rev_involutive subseq) at 1.
  rewrite (includes_rev lower (rev subseq)). apply orb_comm.
Qed.

Lemma hasRepeatedChars_rev (password : str) :
  hasRepeatedChars (rev password) = hasRepeatedChars password.
Proof.
  apply bool_eq_iff. rewrite !hasRepeatedChars_NoDup.
  assert (H : NoDup (rev password) <-> NoDup password).
  { split; intros Hnd.
    - eapply NoDup_Permutation_proper; [apply Permutation_rev|exact Hnd].
    - eapply NoDup_Permutation_proper; [symmetry; apply Permutation_rev|exact Hnd]. }
  now rewrite H.
Qed.

(** X12: a password of ASCII characters, on which [toLowerCase] works
    character by character, and the same password written backwards get
    the same analysis: the same features, entropy, score and level. *)
Theorem analyzePassword_rev (password : str) :
  asciiOnly password ->
  analyzePassword (rev password) = analyzePassword password.
Proof.
  intros _. unfold analyzePassword, calculateEntropy.
  rewrite !existsb_rev, length_rev, hasRepeatedChars_rev, hasSequentialChars_rev.
  reflexivity.
Qed.

Lemma analyzePassword_rev_witness :
  let password := lit "Xy7cba!" in
  asciiOnly password /\
  rev password = lit "!abc7yX" /\
  Analysis.hasSequential (analyzePassword password) = true /\
  analyzePassword (rev password) = analyzePassword password.
Proof.
  intros password.
  assert (Hascii : asciiOnly password).
  { unfold asciiOnly, password. repeat constructor. }
  split; [exact Hascii|]. split; [reflexivity|]. split; [reflexivity|].
  apply (analyzePassword_rev password Hascii).
Defined.

(** ** Bounds on the score *)

Lemma calculateEntropy_timesLog2 (password : str) :
  calculateEntropy password =
    timesLog2 (N.of_nat (List.length password))
              (Z.to_N (nominalAlphabet password)) /\
  (0 <= nominalAlphabet password <= 94)%Z.
Proof.
  unfold calculateEntropy, nominalAlphabet.
  destruct (existsb isLower password), (existsb isUpper password),
    (existsb isDigit password), (existsb isSymbol password);
    split; (reflexivity || lia).
Qed.

(** No password of fewer than [10] characters has more than 60 bits. *)
Lemma exceeds_60_length (password : str) :
  exceeds (calculateEntropy password) 60 = true -> 10 <= List.length password.
Proof.
  destruct (calculateEntropy_timesLog2 password) as [-> Hc].
  unfold timesLog2.
  destruct (N.eqb (Z.to_N (nominalAlphabet password)) 0);
    [now destruct (N.eqb _ 0)|].
  cbn [exceeds]. rewrite N.ltb_lt. intros H.
  destruct (le_lt_dec 10 (List.length password)) as [Hle|Hlt]; [exact Hle|].
  exfalso.
  assert (H1 : (Z.to_N (nominalAlphabet password) ^ N.of_nat (List.length password)
                <= 94 ^ N.of_nat (List.length password))%N)
    by (apply N.pow_le_mono_l; lia).
  assert (H2 : (94 ^ N.of_nat (List.length password) <= 94 ^ 9)%N)
    by (apply N.pow_le_mono_r; lia).
  assert (H3 : (94 ^ 9 < 2 ^ 60)%N) by reflexivity.
  lia.
Qed.

Lemma points_range (cond : bool) (k : Z) :
  (0 <= k)%Z -> (0 <= points cond k <= k)%Z.
Proof. intros Hk. unfold points. destruct cond; lia. Qed.

Lemma points_false (cond : bool) (k : Z) : cond = false -> points cond k = 0%Z.
Proof. now intros ->. Qed.

Lemma points_true (cond : bool) (k : Z) : cond = true -> points cond k = k.
Proof. now intros ->. Qed.

Lemma geb_false (a b : Z) : (a < b)%Z -> (a >=? b)%Z = false.
Proof. intros H. rewrite Z.geb_leb. apply Z.leb_gt. exact H. Qed.

Lemma geb_cases (a b : Z) :
  ((a >=? b)%Z = true /\ (b <= a)%Z) \/ ((a >=? b)%Z = false /\ (a < b)%Z).
Proof. rewrite Z.geb_leb. destruct (Z.leb_spec b a); [left|right]; now split. Qed.

(** The score before any knowledge of the features but the length. *)
Lemma score_terms (password : str) :
  exists classes bonus40 bonus60 repeated sequential : Z,
    Analysis.score (analyzePassword password) =
      (let len := Z.of_nat (List.length password) in
       Z.max 0 (Z.min 100
         (0 + points (len >=? 8) 25 + points (len >=? 12) 15
            + points (len >=? 16) 10 + classes + bonus40 + bonus60
            - repeated - sequential - points (len <? 8) 20)))%Z /\
    (0 <= classes <= 45)%Z /\ (0 <= bonus40 <= 10)%Z /\
    (0 <= bonus60 <= 5)%Z /\ (0 <= repeated <= 10)%Z /\
    (0 <= sequential <= 15)%Z /\
    (List.length password < 10 -> bonus60 = 0%Z).
Proof.
  exists (points (existsb isUpper password) 10 + points (existsb isLower password) 10
          + points (existsb isDigit password) 10
          + points (existsb isSymbol password) 15)%Z,
    (points (exceeds (calculateEntropy password) 40) 10),
    (points (exceeds (calculateEntropy password) 60) 5),
    (points (hasRepeatedChars password) 10),
    (points (hasSequentialChars password) 15).
  rewrite analyzePassword_score, calculateStrengthScore_sum.
  cbn [Analysis.length Analysis.hasUppercase Analysis.hasLowercase
       Analysis.hasNumbers Analysis.hasSymbols Analysis.hasRepeated
       Analysis.hasSequential Analysis.entropy].
  pose proof (points_range (existsb isUpper password) 10).
  pose proof (points_range (existsb isLower password) 10).
  pose proof (points_range (existsb isDigit password) 10).
  pose proof (points_range (existsb isSymbol password) 15).
  pose proof (points_range (exceeds (calculateEntropy password) 40) 10).
  pose proof (points_range (exceeds (calculateEntropy password) 60) 5).
  pose proof (points_range (hasRepeatedChars password) 10).
  pose proof (points_range (hasSequentialChars password) 15).
  cbv zeta. repeat split; try lia.
  intros Hlen. apply points_false.
  destruct (exceeds (calculateEntropy password) 60) eqn:E; [|reflexivity].
  apply exceeds_60_length in E. lia.
Qed.

Lemma analyzePassword_level (password : str) :
  Analysis.level (analyzePassword password) =
  getStrengthLevel (Analysis.score (analyzePassword password)).
Proof. reflexivity. Qed.

(** X13: a password of fewer than 8 characters scores at most 35 and is
    rated Weak or Very Weak, whatever its characters. *)
Theorem short_password_weak (password : str) :
  List.length password < 8 ->
  (Analysis.score (analyzePassword password) <= 35)%Z /\
  (Analysis.level (analyzePassword password) = lit "Weak" \/
   Analysis.level (analyzePassword password) = lit "Very Weak").
Proof.
  intros Hlen. rewrite analyzePassword_level.
  destruct (score_terms password)
    as (cl & b40 & b60 & rp & sq & -> & Hcl & H40 & H60 & Hrp & Hsq & Hb).
  specialize (Hb ltac:(lia)). cbv zeta.
  set (len := Z.of_nat (List.length password)).
  assert (Hl : (len < 8)%Z) by (unfold len; lia).
  rewrite (points_false (len >=? 8)%Z) by (apply geb_false; lia).
  rewrite (points_false (len >=? 12)%Z) by (apply geb_false; lia).
  rewrite (points_false (len >=? 16)%Z) by (apply geb_false; lia).
  rewrite (points_true (len <? 8)%Z) by (apply Z.ltb_lt; lia).
  set (score := Z.max 0 _).
  assert (Hs : (score <= 35)%Z) by (unfold score; lia).
  split; [exact Hs|]. unfold getStrengthLevel.
  destruct (geb_cases score 90) as [[-> ?]|[-> _]]; [lia|].
  destruct (geb_cases score 75) as [[-> ?]|[-> _]]; [lia|].
  destruct (geb_cases score 60) as [[-> ?]|[-> _]]; [lia|].
  destruct (geb_cases score 40) as [[-> ?]|[-> _]]; [lia|].
  destruct (geb_cases score 20) as [[-> _]|[-> _]]; [now left|now right].
Qed.

Lemma short_password_weak_witness :
  let password := lit "aB3!kQ9" in
  List.length password < 8 /\
  Analysis.score (analyzePassword password) = 35%Z /\
  (Analysis.level (analyzePassword password) = lit "Weak" \/
   Analysis.level (analyzePassword password) = lit "Very Weak").
Proof.
  intros password. split; [cbn; lia|]. split; [reflexivity|].
  apply (short_password_weak password). cbn. lia.
Defined.

(** X14: a password of fewer than 12 characters scores at most 85 and
    is never rated Excellent. *)
Theorem below_twelve_not_excellent (password : str) :
  List.length password < 12 ->
  (Analysis.score (analyzePassword password) <= 85)%Z /\
  Analysis.level (analyzePassword password) <> lit "Excellent".
Proof.
  intros Hlen. rewrite analyzePassword_level.
  destruct (score_terms password)
    as (cl & b40 & b60 & rp & sq & -> & Hcl & H40 & H60 & Hrp & Hsq & _).
  cbv zeta. set (len := Z.of_nat (List.length password)).
  assert (Hl : (len < 12)%Z) by (unfold len; lia).
  rewrite (points_false (len >=? 12)%Z) by (apply geb_false; lia).
  rewrite (points_false (len >=? 16)%Z) by (apply geb_false; lia).
  pose proof (points_range (len >=? 8)%Z 25 ltac:(lia)).
  pose proof (points_range (len <? 8)%Z 20 ltac:(lia)).
  set (score := Z.max 0 _).
  assert (Hs : (score <= 85)%Z) by (unfold score; lia).
  split; [exact Hs|]. unfold getStrengthLevel.
  destruct (geb_cases score 90) as [[-> ?]|[-> _]]; [lia|].
  destruct (geb_cases score 75) as [[-> _]|[-> _]]; [discriminate|].
  destruct (geb_cases score 60) as [[-> _]|[-> _]]; [discriminate|].
  destruct (geb_cases score 40) as [[-> _]|[-> _]]; [discriminate|].
  destruct (geb_cases score 20) as [[-> _]|[-> _]]; discriminate.
Qed.

Lemma below_twelve_not_excellent_witness :
  let password := lit "aB3!kQ9xZ7%" in
  List.length password < 12 /\
  Analysis.score (analyzePassword password) = 85%Z /\
  Analysis.level (analyzePassword password) <> lit "Excellent".
Proof.
  intros password. split; [cbn; lia|]. split; [reflexivity|].
  apply (below_twelve_not_excellent password). cbn. lia.
Defined.

(** ** Suggestions and recommendations *)

Lemma pushIf_length {A} (cond : bool) (x : A) (array : list A) :
  List.length (pushIf cond x array) = List.length array + Nat.b2n cond.
Proof. unfold pushIf. destruct cond; [rewrite length_app|]; cbn; lia. Qed.

Lemma In_pushIf {A} (cond : bool) (x y : A) (array : list A) :
  In x (pushIf cond y array) <-> In x array \/ (cond = true /\ x = y).
Proof.
  unfold pushIf. destruct cond.
  - rewrite in_app_iff. cbn [In]. intuition congruence.
  - intuition congruence.
Qed.

Lemma ltb_false (a b : Z) : (a <? b)%Z = false <-> (b <= a)%Z.
Proof. apply Z.ltb_ge. Qed.

(** X15: for a non-empty password the suggestions are hidden exactly
    when it has at least 12 characters, a character of each of the four
    classes, no character twice and no sequential run; otherwise the list
    is shown with at least one suggestion. *)
Theorem suggestions_hidden (password : str) (panel : Panel) :
  password <> [] ->
  (suggestionsShown (checkPasswordStrength password panel) = false <->
   12 <= List.length password /\
   existsb isUpper password = true /\ existsb isLower password = true /\
   existsb isDigit password = true /\ existsb isSymbol password = true /\
   NoDup password /\ hasSequentialChars password = false) /\
  (suggestionsShown (checkPasswordStrength password panel) = true ->
   suggestionsList (checkPasswordStrength password panel) =
     suggestionsOf (analyzePassword password) /\
   suggestionsOf (analyzePassword password) <> []).
Proof.
  intros Hne. destruct password as [|c password]; [congruence|].
  set (p := c :: password) in *.
  change (checkPasswordStrength p panel)
    with (updateSuggestions (analyzePassword p)
            (updateCriteria p (analyzePassword p)
               (updateStrengthMeter (analyzePassword p) panel))).
  cbn [updateSuggestions suggestionsShown suggestionsList].
  assert (Hlen : List.length (suggestionsOf (analyzePassword p)) =
    Nat.b2n (Z.of_nat (List.length p) <? 8)%Z +
    Nat.b2n (Z.of_nat (List.length p) <? 12)%Z +
    Nat.b2n (negb (existsb isUpper p)) + Nat.b2n (negb (existsb isLower p)) +
    Nat.b2n (negb (existsb isDigit p)) + Nat.b2n (negb (existsb isSymbol p)) +
    Nat.b2n (hasRepeatedChars p) + Nat.b2n (hasSequentialChars p)).
  { unfold suggestionsOf. cbv zeta. rewrite !pushIf_length.
    destruct (analyzePassword_fields p) as (-> & -> & -> & -> & -> & -> & -> & _).
    reflexivity. }
  pose proof (hasRepeatedChars_NoDup p) as Hrep.
  split.
  - rewrite Nat.ltb_ge, Hlen.
    destruct (Z.ltb_spec (Z.of_nat (List.length p)) 8),
      (Z.ltb_spec (Z.of_nat (List.length p)) 12),
      (existsb isUpper p), (existsb isLower p), (existsb isDigit p),
      (existsb isSymbol p), (hasSequentialChars p),
      (hasRepeatedChars p) eqn:Er;
      cbn [Nat.b2n negb]; split;
      try (intros Hs; exfalso; lia);
      try (intros (H12 & Hu & Hl & Hd & Hy & Hnd & Hq); exfalso;
           first [lia | discriminate | apply Hrep; [reflexivity|exact Hnd]]).
    + intros _. repeat split; try lia.
      destruct (decide (NoDup p)) as [Hnd|Hnd]; [exact Hnd|].
      apply Hrep in Hnd. discriminate.
    + intros _. lia.
  - intros Hshown. rewrite Hshown. split; [reflexivity|].
    intros Hnil. rewrite Hnil in Hshown. discriminate.
Qed.

Lemma suggestions_hidden_witness :
  let password := lit "aB3!kQ9xZ7%wP" in
  password <> [] /\
  suggestionsShown (checkPasswordStrength password blankPanel) = false.
Proof.
  intros password. split; [discriminate|].
  apply (suggestions_hidden password blankPanel); [discriminate|].
  split; [cbn; lia|]. repeat (split; [reflexivity|]).
  split; [|reflexivity].
  destruct (decide (NoDup password)) as [Hnd|Hnd]; [exact Hnd|].
  apply hasRepeatedChars_NoDup in Hnd. discriminate.
Defined.

(** X16: the extended analysis recommends more complexity exactly for a
    non-empty password whose entropy is below 50 bits; it never does for
    the empty string, whose entropy is not a number. *)
Theorem low_entropy_recommendation (password : str) :
  In {| type := lit "info"; text := lit "Increase password complexity" |}
     (recommendations (performAdvancedAnalysis password)) <->
  password <> [] /\ (entropyBits password < 50)%R.
Proof.
  unfold performAdvancedAnalysis. cbn [recommendations].
  unfold getAdvancedRecommendations. cbv zeta.
  rewrite !In_pushIf. cbn [In].
  destruct (analyzePassword_fields password) as (_ & _ & _ & _ & _ & _ & _ & ->).
  split.
  - intros [[[[[[[[]|[_ H]]|[_ H]]|[_ H]]|[_ H]]|[_ H]]|[_ H]]|[H _]];
      try discriminate H.
    destruct password as [|c password]; [discriminate H|].
    split; [discriminate|].
    now apply (below_entropy (c :: password) 50).
  - intros [Hne H]. right. split; [|reflexivity].
    now apply (below_entropy password 50).
Qed.

(** ** The generator under the analyzer *)

(** Each character of a class set is of its class and of no other. *)
Lemma charSets_classes :
  forallb (fun c => isUpper c && negb (isLower c) && negb (isDigit c)
                    && negb (isSymbol c)) (uppercase charSets) = true /\
  forallb (fun c => isLower c && negb (isUpper c) && negb (isDigit c)
                    && negb (isSymbol c)) (lowercase charSets) = true /\
  forallb (fun c => isDigit c && negb (isUpper c) && negb (isLower c)
                    && negb (isSymbol c)) (numbers charSets) = true /\
  forallb (fun c => isSymbol c && negb (isUpper c) && negb (isLower c)
                    && negb (isDigit c)) (symbols charSets) = true.
Proof. repeat split. Qed.

Lemma filteredClass_In (exclude : bool) (chars toRemove : str) (c : ascii) :
  In c (filteredClass exclude chars toRemove) -> In c chars.
Proof.
  unfold filteredClass. destruct exclude; [|trivial].
  intros H. now apply removeChars_In in H.
Qed.

Lemma forallb_In {A} (f : A -> bool) (l : list A) (x : A) :
  forallb f l = true -> In x l -> f x = true.
Proof. intros H. now apply forallb_forall. Qed.

(** A character of the character set is of a selected class. *)
Lemma selectedClasses_char (options : Options.t) (c : ascii) :
  In c (concat (selectedClasses options)) ->
  (isUpper c = true -> Options.includeUppercase options = true) /\
  (isLower c = true -> Options.includeLowercase options = true) /\
  (isDigit c = true -> Options.includeNumbers options = true) /\
  (isSymbol c = true -> Options.includeSymbols options = true).
Proof.
  destruct charSets_classes as (Hu & Hl & Hn & Hs).
  unfold selectedClasses. rewrite !concat_app, !in_app_iff.
  intros [H|[H|[H|H]]]; apply In_concat_optional in H; destruct H as [Hflag H];
    apply filteredClass_In in H.
  - pose proof (forallb_In _ _ c Hu H) as Hc.
    cbv beta in Hc. revert Hc.
    destruct (isUpper c), (isLower c), (isDigit c), (isSymbol c);
      cbn; intros Hc; try discriminate Hc;
      repeat split; intros; (assumption || congruence).
  - pose proof (forallb_In _ _ c Hl H) as Hc.
    cbv beta in Hc. revert Hc.
    destruct (isUpper c), (isLower c), (isDigit c), (isSymbol c);
      cbn; intros Hc; try discriminate Hc;
      repeat split; intros; (assumption || congruence).
  - pose proof (forallb_In _ _ c Hn H) as Hc.
    cbv beta in Hc. revert Hc.
    destruct (isUpper c), (isLower c), (isDigit c), (isSymbol c);
      cbn; intros Hc; try discriminate Hc;
      repeat split; intros; (assumption || congruence).
  - pose proof (forallb_In _ _ c Hs H) as Hc.
    cbv beta in Hc. revert Hc.
    destruct (isUpper c), (isLower c), (isDigit c), (isSymbol c);
      cbn; intros Hc; try discriminate Hc;
      repeat split; intros; (assumption || congruence).
Qed.

Lemma class_flag (class_of : ascii -> bool) (flag : bool) (class : str)
    (classes : list str) (password : str) :
  (forall c, In c password -> class_of c = true -> flag = true) ->
  (flag = true -> In class classes) ->
  (forall c, In c class -> class_of c = true) ->
  Forall (fun class => exists c, In c class /\ In c password) classes ->
  existsb class_of password = flag.
Proof.
  intros Honly Hsel Hclass Hall. apply bool_eq_iff. split.
  - intros H. apply existsb_exists in H. destruct H as (c & Hc & Hf).
    now apply (Honly c).
  - intros Hflag. apply existsb_exists.
    rewrite List.Forall_forall in Hall.
    destruct (Hall class (Hsel Hflag)) as (c & Hc & Hp).
    exists c. split; [exact Hp|now apply Hclass].
Qed.

(** The analyzer finds in a generated password the selected classes and
    no other. *)
Lemma createPassword_flags (options : Options.t) (rnd : Source) :
  validateOptions options = true ->
  let password := run (createPassword options) rnd in
  existsb isUpper password = Options.includeUppercase options /\
  existsb isLower password = Options.includeLowercase options /\
  existsb isDigit password = Options.includeNumbers options /\
  existsb isSymbol password = Options.includeSymbols options.
Proof.
  intros Hvalid password.
  destruct (createPassword_chars options rnd Hvalid) as (_ & Hin & Hall).
  fold password in Hin, Hall. rewrite List.Forall_forall in Hin.
  destruct charSets_classes as (Hu & Hl & Hn & Hs).
  assert (Hsub : forall f (chars : str),
            forallb f chars = true ->
            forall exclude toRemove c,
              In c (filteredClass exclude chars toRemove) -> f c = true).
  { intros f chars Hf exclude toRemove c Hc.
    apply (forallb_In f chars c Hf). now apply filteredClass_In in Hc. }
  assert (Handb : forall a b c d : bool, a && b && c && d = true -> a = true)
    by (intros [] [] [] []; cbn; congruence).
  repeat split.
  - apply (class_flag _ _ (filteredClass (Options.excludeSimilar options)
                             (uppercase charSets) (similar charSets))
                      (selectedClasses options)); [| | |exact Hall].
    + intros c Hc. now apply (selectedClasses_char options c (Hin c Hc)).
    + intros Hf. unfold selectedClasses. rewrite Hf. apply in_or_app. left. now left.
    + intros c Hc. eapply Handb. exact (Hsub _ _ Hu _ _ c Hc).
  - apply (class_flag _ _ (filteredClass (Options.excludeSimilar options)
                             (lowercase charSets) (similar charSets))
                      (selectedClasses options)); [| | |exact Hall].
    + intros c Hc. now apply (selectedClasses_char options c (Hin c Hc)).
    + intros Hf. unfold selectedClasses. rewrite Hf.
      apply in_or_app. right. apply in_or_app. left. now left.
    + intros c Hc. eapply Handb. exact (Hsub _ _ Hl _ _ c Hc).
  - apply (class_flag _ _ (filteredClass (Options.excludeSimilar options)
                             (numbers charSets) (similar charSets))
                      (selectedClasses options)); [| | |exact Hall].
    + intros c Hc. now apply (selectedClasses_char options c (Hin c Hc)).
    + intros Hf. unfold selectedClasses. rewrite Hf.
      apply in_or_app. right. apply in_or_app. right.
      apply in_or_app. left. now left.
    + intros c Hc. eapply Handb. exact (Hsub _ _ Hn _ _ c Hc).
  - apply (class_flag _ _ (filteredClass (Options.excludeAmbiguous options)
                             (symbols charSets) (ambiguous charSets))
                      (selectedClasses options)); [| | |exact Hall].
    + intros c Hc. now apply (selectedClasses_char options c (Hin c Hc)).
    + intros Hf. unfold selectedClasses. rewrite Hf.
      apply in_or_app. right. apply in_or_app. right.
      apply in_or_app. right. now left.
    + intros c Hc. eapply Handb. exact (Hsub _ _ Hs _ _ c Hc).
Qed.

Lemma checkPasswordStrength_nonempty (password : str) (panel : Panel) :
  password <> [] ->
  checkPasswordStrength password panel =
    updateSuggestions (analyzePassword password)
      (updateCriteria password (analyzePassword password)
         (updateStrengthMeter (analyzePassword password) panel)).
Proof. destruct password; [congruence|reflexivity]. Qed.

(** X17: after a generation the criteria of the strength panel are the
    options: a class criterion is met exactly when its class was
    selected, and the two length criteria are the requested length
    against 8 and 12. *)
Theorem generatePassword_criteria (options : Options.t) (page : Page)
    (rnd : Source) :
  validateOptions options = true ->
  (numSelectedClasses options <= Options.length options)%Z ->
  let panel' := panel (run (generatePassword options page) rnd) in
  uppercaseCriterion panel' = Options.includeUppercase options /\
  lowercaseCriterion panel' = Options.includeLowercase options /\
  numberCriterion panel' = Options.includeNumbers options /\
  symbolCriterion panel' = Options.includeSymbols options /\
  lengthCriterion panel' = (8 <=? Options.length options)%Z /\
  lengthBonusCriterion panel' = (12 <=? Options.length options)%Z.
Proof.
  intros Hvalid Hlen panel'.
  pose proof (createPassword_nonempty options rnd Hvalid) as Hne.
  destruct (createPassword_flags options rnd Hvalid) as (Hu & Hl & Hn & Hs).
  destruct (createPassword_chars options rnd Hvalid) as (Hpl & _).
  set (password := run (createPassword options) rnd) in *.
  assert (Hpanel : panel' = checkPasswordStrength password (panel page)).
  { unfold panel', password, generatePassword, run, bind. rewrite Hvalid.
    cbn [negb]. destruct (createPassword options rnd) as [pw s'].
    cbn [fst ret showToast panel].
    now rewrite (proj1 (addToHistory_fields _ _)). }
  rewrite Hpanel, (checkPasswordStrength_nonempty password (panel page) Hne).
  assert (Hpw : Z.of_nat (List.length password) = Options.length options) by lia.
  cbn [updateSuggestions updateCriteria uppercaseCriterion lowercaseCriterion
       numberCriterion symbolCriterion lengthCriterion lengthBonusCriterion].
  destruct (analyzePassword_fields password) as (_ & -> & -> & -> & -> & _).
  rewrite Hu, Hl, Hn, Hs. repeat split.
  - apply bool_eq_iff. rewrite Nat.leb_le, Z.leb_le. lia.
  - apply bool_eq_iff. rewrite Nat.leb_le, Z.leb_le. lia.
Qed.

Lemma generatePassword_criteria_witness :
  let options := {| Options.length := 10;
                    Options.includeUppercase := true;
                    Options.includeLowercase := false;
                    Options.includeNumbers := true;
                    Options.includeSymbols := false;
                    Options.excludeSimilar := true;
                    Options.excludeAmbiguous := false |} in
  let rnd : Source := fun k => (13 * N.of_nat k + 4)%N in
  let panel' := panel (run (generatePassword options (blankPage [])) rnd) in
  validateOptions options = true /\
  (numSelectedClasses options <= Options.length options)%Z /\
  uppercaseCriterion panel' = true /\ lowercaseCriterion panel' = false /\
  lengthCriterion panel' = true /\ lengthBonusCriterion panel' = false.
Proof.
  intros options rnd panel'.
  split; [reflexivity|]. split; [vm_compute; discriminate|].
  destruct (generatePassword_criteria options (blankPage []) rnd eq_refl
              ltac:(vm_compute; discriminate)) as (Hu & Hl & _ & _ & H8 & H12).
  repeat split; assumption.
Defined.

(** X18: a generated password of at least 16 characters with the four
    classes selected scores at least 85, whatever the random draws: it
    is rated Strong or Excellent. *)
Theorem generated_password_strong (options : Options.t) (rnd : Source) :
  Options.includeUppercase options = true ->
  Options.includeLowercase options = true ->
  Options.includeNumbers options = true ->
  Options.includeSymbols options = true ->
  (16 <= Options.length options)%Z ->
  let analysis := analyzePassword (run (createPassword options) rnd) in
  (85 <= Analysis.score analysis)%Z /\
  (Analysis.level analysis = lit "Strong" \/
   Analysis.level analysis = lit "Excellent").
Proof.
  intros Hu Hl Hn Hs Hlen analysis.
  assert (Hvalid : validateOptions options = true)
    by (unfold validateOptions; now rewrite Hu).
  assert (Hnum : numSelectedClasses options = 4%Z)
    by (unfold numSelectedClasses; now rewrite Hu, Hl, Hn, Hs).
  destruct (createPassword_flags options rnd Hvalid) as (Fu & Fl & Fn & Fs).
  destruct (createPassword_chars options rnd Hvalid) as (Hpl & _).
  unfold analysis. set (password := run (createPassword options) rnd) in *.
  rewrite Hu in Fu. rewrite Hl in Fl. rewrite Hn in Fn. rewrite Hs in Fs.
  assert (Hpw : (16 <= Z.of_nat (List.length password))%Z) by lia.
  assert (He : forall k, (k <= 60)%N ->
                         exceeds (calculateEntropy password) k = true).
  { intros k Hk. unfold calculateEntropy. rewrite Fu, Fl, Fn, Fs.
    unfold timesLog2. cbn [N.add N.eqb exceeds]. apply N.ltb_lt.
    change (0 + 26 + 26 + 10 + 32)%N with 94%N.
    assert (H1 : (2 ^ k <= 2 ^ 60)%N) by (apply N.pow_le_mono_r; lia).
    assert (H2 : (2 ^ 60 < 94 ^ 16)%N) by reflexivity.
    assert (H3 : (94 ^ 16 <= 94 ^ N.of_nat (List.length password))%N)
      by (apply N.pow_le_mono_r; lia).
    lia. }
  rewrite analyzePassword_level, analyzePassword_score, calculateStrengthScore_sum.
  cbn [Analysis.length Analysis.hasUppercase Analysis.hasLowercase
       Analysis.hasNumbers Analysis.hasSymbols Analysis.hasRepeated
       Analysis.hasSequential Analysis.entropy].
  rewrite Fu, Fl, Fn, Fs, (He 40%N), (He 60%N) by lia.
  set (len := Z.of_nat (List.length password)) in *.
  rewrite (points_true (len >=? 8)%Z), (points_true (len >=? 12)%Z),
    (points_true (len >=? 16)%Z) by (apply Z.geb_le; lia).
  rewrite (points_false (len <? 8)%Z) by (apply Z.ltb_ge; lia).
  pose proof (points_range (hasRepeatedChars password) 10 ltac:(lia)).
  pose proof (points_range (hasSequentialChars password) 15 ltac:(lia)).
  rewrite !(points_true true) by reflexivity.
  set (score := Z.max 0 _).
  assert (Hscore : (85 <= score <= 100)%Z) by (unfold score; lia).
  split; [lia|]. unfold getStrengthLevel.
  destruct (geb_cases score 90) as [[-> _]|[-> _]]; [now right|].
  destruct (geb_cases score 75) as [[-> _]|[-> ?]]; [now left|lia].
Qed.

Lemma generated_password_strong_witness :
  let options := {| Options.length := 16;
                    Options.includeUppercase := true;
                    Options.includeLowercase := true;
                    Options.includeNumbers := true;
                    Options.includeSymbols := true;
                    Options.excludeSimilar := false;
                    Options.excludeAmbiguous := false |} in
  let rnd : Source := fun k => (23 * N.of_nat k + 9)%N in
  (16 <= Options.length options)%Z /\
  (85 <= Analysis.score (analyzePassword (run (createPassword options) rnd)))%Z.
Proof.
  intros options rnd. split; [vm_compute; discriminate|].
  apply (generated_password_strong options rnd);
    solve [reflexivity | vm_compute; discriminate].
Defined.

(** ** The leak patterns *)

Lemma isDigit_not_symbol (c : ascii) : isDigit c = true -> isSymbol c = false.
Proof. unfold isSymbol. intros ->. now rewrite !orb_true_r. Qed.

Lemma letter_not_symbol (c : ascii) :
  isLower c || isUpper c = true -> isSymbol c = false.
Proof. unfold isSymbol. now destruct (isUpper c), (isLower c). Qed.

Lemma forallb_not_symbol (class : ascii -> bool) (s : str) :
  (forall c, class c = true -> isSymbol c = false) ->
  forallb class s = true -> existsb isSymbol s = false.
Proof.
  intros Hclass. induction s as [|c s IH]; cbn [forallb existsb]; [reflexivity|].
  rewrite andb_true_iff. intros [Hc Hs]. now rewrite (Hclass c Hc), IH.
Qed.

Lemma ciChar_not_symbol (p c : ascii) :
  isLower p = true -> PasswordTester.ciChar p c = true -> isSymbol c = false.
Proof.
  unfold PasswordTester.ciChar. intros Hp H. apply orb_true_iff in H.
  apply letter_not_symbol. destruct H as [H|H].
  - apply Ascii.eqb_eq in H. subst. now rewrite Hp.
  - apply andb_true_iff in H. destruct H as [-> _]. apply orb_true_r.
Qed.

Lemma ciChars_not_symbol (word s : str) :
  forallb isLower word = true ->
  List.length s = List.length word ->
  forallb (fun pc => PasswordTester.ciChar (fst pc) (snd pc)) (combine word s) = true ->
  existsb isSymbol s = false.
Proof.
  revert s. induction word as [|p word IH]; intros [|c s] Hw Hlen H;
    try discriminate Hlen; [reflexivity|].
  cbn [forallb combine fst snd] in *.
  apply andb_true_iff in Hw. destruct Hw as [Hp Hw].
  apply andb_true_iff in H. destruct H as [Hc H].
  cbn [existsb]. rewrite (ciChar_not_symbol p c Hp Hc).
  apply IH; [exact Hw|now injection Hlen|exact H].
Qed.

Lemma existsb_app_false {A} (f : A -> bool) (l1 l2 : list A) :
  existsb f l1 = false -> existsb f l2 = false -> existsb f (l1 ++ l2) = false.
Proof. intros H1 H2. now rewrite existsb_app, H1, H2. Qed.

Lemma wordThenDigits_not_symbol (word : str) (min : nat) (password : str) :
  forallb isLower word = true -> word <> [] ->
  PasswordTester.wordThenDigits word min password = true ->
  password <> [] /\ existsb isSymbol password = false.
Proof.
  intros Hw Hne. unfold PasswordTester.wordThenDigits.
  rewrite !andb_true_iff, Nat.eqb_eq. intros [[[Hlen Hci] Hd] _].
  split.
  - intros ->. rewrite take_nil in Hlen. cbn in Hlen.
    destruct word; [congruence|discriminate].
  - rewrite <- (take_drop (List.length word) password).
    apply existsb_app_false.
    + now apply (ciChars_not_symbol word).
    + apply (forallb_not_symbol isDigit); [apply isDigit_not_symbol|exact Hd].
Qed.

Lemma allOf_not_symbol (class : ascii -> bool) (min max : nat) (password : str) :
  (forall c, class c = true -> isSymbol c = false) -> 1 <= min ->
  PasswordTester.allOf class min max password = true ->
  password <> [] /\ existsb isSymbol password = false.
Proof.
  intros Hclass Hmin. unfold PasswordTester.allOf.
  rewrite !andb_true_iff, !Nat.leb_le. intros [[Hall Hlo] _]. split.
  - intros ->. cbn in Hlo. lia.
  - now apply (forallb_not_symbol class).
Qed.

Lemma checkAgainstLeaks_no_symbol (password : str) :
  PasswordTester.checkAgainstLeaks password = true ->
  password <> [] /\ existsb isSymbol password = false.
Proof.
  unfold PasswordTester.checkAgainstLeaks, PasswordTester.commonPatterns.
  cbn [existsb]. rewrite !orb_true_iff.
  intros [H|[H|[H|[H|[H|[H|H]]]]]]; [| | | | | |discriminate H].
  - apply (wordThenDigits_not_symbol (lit "password")) in H;
      [exact H|reflexivity|discriminate].
  - apply (wordThenDigits_not_symbol (lit "admin")) in H;
      [exact H|reflexivity|discriminate].
  - apply (wordThenDigits_not_symbol (lit "user")) in H;
      [exact H|reflexivity|discriminate].
  - apply (wordThenDigits_not_symbol (lit "test")) in H;
      [exact H|reflexivity|discriminate].
  - apply (allOf_not_symbol isDigit) in H; [exact H|apply isDigit_not_symbol|lia].
  - apply allOf_not_symbol in H; [exact H|apply letter_not_symbol|lia].
Qed.

(** X19: a password that matches one of the leak patterns is not empty
    and has letters and digits only; a single other character is enough
    never to be flagged. *)
Theorem checkAgainstLeaks_alphanumeric (password : str) :
  PasswordTester.checkAgainstLeaks password = true ->
  password <> [] /\
  Forall (fun c => isUpper c || isLower c || isDigit c = true) password /\
  Analysis.hasSymbols (analyzePassword password) = false.
Proof.
  intros H. destruct (checkAgainstLeaks_no_symbol password H) as [Hne Hs].
  split; [exact Hne|]. split; [|exact Hs].
  apply List.Forall_forall. intros c Hc.
  destruct (isUpper c || isLower c || isDigit c) eqn:E; [reflexivity|].
  assert (Hex : existsb isSymbol password = true).
  { apply existsb_exists. exists c. split; [exact Hc|].
    unfold isSymbol. now rewrite E. }
  congruence.
Qed.

Lemma checkAgainstLeaks_alphanumeric_witness :
  let password := lit "Admin2024" in
  PasswordTester.checkAgainstLeaks password = true /\
  Analysis.hasSymbols (analyzePassword password) = false.
Proof.
  intros password. split; [reflexivity|].
  apply (checkAgainstLeaks_alphanumeric password). reflexivity.
Defined.

(** X20: a generated password with the symbol class selected is never
    flagged as a leaked pattern by the extended analysis, whatever the
    other options and the random draws. *)
Theorem generated_symbols_not_leaked (options : Options.t) (rnd : Source) :
  Options.includeSymbols options = true ->
  isLeaked (performAdvancedAnalysis (run (createPassword options) rnd)) = false /\
  ~ In {| type := lit "critical";
          text := lit "This pattern appears in data breaches" |}
       (recommendations
          (performAdvancedAnalysis (run (createPassword options) rnd))).
Proof.
  intros Hs.
  assert (Hvalid : validateOptions options = true).
  { unfold validateOptions. rewrite Hs. now rewrite !orb_true_r. }
  destruct (createPassword_flags options rnd Hvalid) as (_ & _ & _ & Fs).
  set (password := run (createPassword options) rnd) in *.
  assert (Hleak : PasswordTester.checkAgainstLeaks password = false).
  { destruct (PasswordTester.checkAgainstLeaks password) eqn:E; [|reflexivity].
    destruct (checkAgainstLeaks_no_symbol password E) as [_ H]. congruence. }
  unfold performAdvancedAnalysis. cbn [isLeaked recommendations].
  split; [exact Hleak|]. rewrite Hleak.
  unfold getAdvancedRecommendations. cbv zeta. rewrite !In_pushIf. cbn [In].
  intros [[[[[[[[]|[_ H]]|[H _]]|[_ H]]|[_ H]]|[_ H]]|[_ H]]|[_ H]];
    discriminate H.
Qed.

Lemma generated_symbols_not_leaked_witness :
  let options := {| Options.length := 6;
                    Options.includeUppercase := false;
                    Options.includeLowercase := true;
                    Options.includeNumbers := false;
                    Options.includeSymbols := true;
                    Options.excludeSimilar := false;
                    Options.excludeAmbiguous := true |} in
  let rnd : Source := fun k => (29 * N.of_nat k + 1)%N in
  Options.includeSymbols options = true /\
  isLeaked (performAdvancedAnalysis (run (createPassword options) rnd)) = false.
Proof.
  intros options rnd. split; [reflexivity|].
  apply (generated_symbols_not_leaked options rnd). reflexivity.
Defined.

(** ** Keyboard patterns and sequential runs *)

Lemma hasSequentialChars_window (password sequence : str) (i : nat) :
  In sequence sequences ->
  In i (List.seq 0 (List.length sequence - 2)) ->
  includes (toLowerCase password) (substring sequence i (i + 3)) = true ->
  hasSequentialChars password = true.
Proof.
  intros Hs Hi H. unfold hasSequentialChars.
  apply existsb_exists. exists sequence. split; [exact Hs|].
  apply existsb_exists. exists i. split; [exact Hi|].
  cbv zeta. now rewrite H.
Qed.

(** A keyboard window other than [890] is a window of a sequence. *)
Lemma keyboardWindow_sequential (password window : str) :
  keyboardWindow window -> window <> lit "890" ->
  includes (toLowerCase password) window = true ->
  hasSequentialChars password = true.
Proof.
  intros (row & i & Hrow & Hi & ->) Hne H.
  unfold AdvancedAnalyzer.keyboardRows in Hrow. cbn [In] in Hrow.
  destruct Hrow as [<-|[<-|[<-|[<-|[]]]]].
  - apply (hasSequentialChars_window password (lit "qwertyuiop") i);
      [cbn; tauto|exact Hi|exact H].
  - apply (hasSequentialChars_window password (lit "asdfghjkl") i);
      [cbn; tauto|exact Hi|exact H].
  - apply (hasSequentialChars_window password (lit "zxcvbnm") i);
      [cbn; tauto|exact Hi|exact H].
  - cbn in Hi.
    destruct Hi as [<-|[<-|[<-|[<-|[<-|[<-|[<-|[<-|[]]]]]]]]];
      [| | | | | | |exfalso; apply Hne; reflexivity].
    all: match type of H with
         | includes _ (substring _ ?k _) = true =>
             apply (hasSequentialChars_window password (lit "0123456789") (S k));
               [cbn; tauto|cbn; tauto|exact H]
         end.
Qed.

Lemma isKeyboardPattern_window (password : str) :
  AdvancedAnalyzer.isKeyboardPattern password = true <->
  exists window, keyboardWindow window /\
                 includes (toLowerCase password) window = true.
Proof.
  unfold AdvancedAnalyzer.isKeyboardPattern. rewrite existsb_exists. split.
  - intros (row & Hrow & H). apply existsb_exists in H.
    destruct H as (i & Hi & H).
    exists (substring row i (i + 3)). split; [|exact H].
    now exists row, i.
  - intros (window & (row & i & Hrow & Hi & ->) & H).
    exists row. split; [exact Hrow|].
    apply existsb_exists. now exists i.
Qed.

(** X21: a keyboard pattern of the extended analysis is also a
    sequential run of the basic analysis, but for the digits [890], which
    only the keyboard row [1234567890] has: a password that holds any
    other window of a keyboard row has a sequential run, and a password
    with a keyboard pattern and no sequential run holds [890] and no
    other window of a keyboard row. *)
Theorem keyboard_pattern_sequential (password : str) :
  (forall window,
     keyboardWindow window -> window <> lit "890" ->
     includes (toLowerCase password) window = true ->
     AdvancedAnalyzer.isKeyboardPattern password = true /\
     hasSequentialChars password = true) /\
  (AdvancedAnalyzer.isKeyboardPattern password = true ->
   hasSequentialChars password = false ->
   includes (toLowerCase password) (lit "890") = true /\
   forall window,
     keyboardWindow window ->
     includes (toLowerCase password) window = true -> window = lit "890") /\
  keyboardWindow (lit "890").
Proof.
  split; [|split].
  - intros window Hw Hne H. split.
    + apply isKeyboardPattern_window. now exists window.
    + now apply (keyboardWindow_sequential password window).
  - intros Hk Hs.
    assert (Honly : forall window, keyboardWindow window ->
              includes (toLowerCase password) window = true ->
              window = lit "890").
    { intros window Hw H.
      destruct (decide (window = lit "890")) as [Heq|Hne]; [exact Heq|].
      rewrite (keyboardWindow_sequential password window Hw Hne H) in Hs.
      discriminate Hs. }
    split; [|exact Honly].
    apply isKeyboardPattern_window in Hk. destruct Hk as (window & Hw & H).
    now rewrite <- (Honly window Hw H).
  - exists (lit "1234567890"), 7. repeat split; cbn; tauto.
Qed.

Lemma keyboard_pattern_sequential_witness :
  AdvancedAnalyzer.isKeyboardPattern (lit "Kx890m") = true /\
  hasSequentialChars (lit "Kx890m") = false /\
  includes (toLowerCase (lit "Kx890m")) (lit "890") = true /\
  hasSequentialChars (lit "QWErty890") = true.
Proof.
  destruct (keyboard_pattern_sequential (lit "Kx890m")) as (_ & H890 & _).
  destruct (keyboard_pattern_sequential (lit "QWErty890")) as (Hother & _).
  split; [reflexivity|]. split; [reflexivity|].
  split; [exact (proj1 (H890 eq_refl eq_refl))|].
  apply (Hother (lit "wer")); [|discriminate|reflexivity].
  exists (lit "qwertyuiop"), 1. repeat split; cbn; tauto.
Defined.
